(** * convert_acc: accelerometer count conversion

    A shallow embedding of the pure core of [convert_acc/__init__.py]: the
    file-name utilities ([getFloor], [getFloorCode], [getTimeText],
    [sortFilesBySensorCode], [sortFiles]) and the numeric stages of the
    [Conversion] class ([setSensitivity], [convertCountToG],
    [getZeroPaddedDf], [integrateSeries], [removeExtraneousSamples],
    [getStats] and the constructor that chains them).

    Python floats are IEEE binary64 numbers and are modelled by Rocq's
    primitive floats, so that concrete values can be evaluated; Python
    [str] values are modelled by [string] (the sensor codes and file names
    of the source are ASCII); a pandas column is a list of cells read from
    index 0 (every frame of the source carries the default 0..n-1 index,
    which [reset_index(drop=True)] restores after each reshaping step). *)

From Stdlib Require Import ZArith List String Ascii Bool Lia Floats.
From Stdlib Require Import Permutation Sorted DecimalString.
Import ListNotations.

#[local] Set Warnings "-inexact-float".

Local Open Scope string_scope.
Local Open Scope list_scope.

(* ===================================================================== *)
(** * Python values, exceptions and the result of a call *)
(* ===================================================================== *)

(** The exceptions that the modelled code can raise. *)
Inductive exn : Type :=
| ValueError (msg : string)
| IndexError
| KeyError (key : string)
| TypeError
| UnboundLocalError (name : string).

(** A call either returns a value or raises. *)
Inductive result (A : Type) : Type :=
| Ok (a : A)
| Raise (e : exn).

Arguments Ok {A} a.
Arguments Raise {A} e.

Definition bind {A B : Type} (r : result A) (k : A -> result B) : result B :=
  match r with
  | Ok a => k a
  | Raise e => Raise e
  end.

Notation "x <- r ;; k" := (bind r (fun x => k))
  (at level 61, r at next level, right associativity).

(** [mapM f l]: a list comprehension or [Series.apply] whose body may raise. *)
Fixpoint mapM {A B : Type} (f : A -> result B) (l : list A) : result (list B) :=
  match l with
  | [] => Ok []
  | a :: l' => b <- f a ;; bs <- mapM f l' ;; Ok (b :: bs)
  end.

(* ===================================================================== *)
(** * Python string operations used by the source *)
(* ===================================================================== *)

Module Py.

(** [sub in s] on strings: [sub] occurs in [s] as a contiguous substring. *)
Fixpoint str_in (sub s : string) : bool :=
  prefix sub s ||
  match s with
  | EmptyString => false
  | String _ s' => str_in sub s'
  end.

(** [s.split(sep)] for a one-character separator: never the empty list. *)
Fixpoint split (sep : ascii) (s : string) : list string :=
  match s with
  | EmptyString => [EmptyString]
  | String c s' =>
      if Ascii.eqb c sep then EmptyString :: split sep s'
      else match split sep s' with
           | [] => [String c EmptyString]
           | w :: ws => String c w :: ws
           end
  end.

(** [c.isdigit()] on an ASCII character. *)
Definition isdigit (c : ascii) : bool :=
  (48 <=? nat_of_ascii c)%nat && (nat_of_ascii c <=? 57)%nat.

(** [[c for c in s if p(c)]] joined back into a string. *)
Fixpoint filter_chars (p : ascii -> bool) (s : string) : string :=
  match s with
  | EmptyString => EmptyString
  | String c s' => if p c then String c (filter_chars p s') else filter_chars p s'
  end.

(** The value of a string of decimal digits, most significant first. *)
Fixpoint digits_value (acc : Z) (s : string) : option Z :=
  match s with
  | EmptyString => Some acc
  | String c s' =>
      if isdigit c
      then digits_value (10 * acc + Z.of_nat (nat_of_ascii c - 48)) s'
      else None
  end.

(** [int(s)] on a string of decimal digits; the empty string and any
    other character raise [ValueError], as in Python. (Signs, blanks and
    underscores, which [int] also accepts, never reach it in the source:
    its only argument is the output of [getFloor].) *)
Definition int (s : string) : result Z :=
  match s with
  | EmptyString => Raise (ValueError "invalid literal for int() with base 10")
  | _ => match digits_value 0 s with
         | Some z => Ok z
         | None => Raise (ValueError "invalid literal for int() with base 10")
         end
  end.

(** [str(z)] on an integer. *)
Definition str (z : Z) : string := NilZero.string_of_int (Z.to_int z).

(** [x in l] on a list of strings. *)
Definition list_in (x : string) (l : list string) : bool :=
  existsb (String.eqb x) l.

(** [sorted(l)] on a list of strings: ascending in the lexicographic
    order of the characters. Two strings that compare equal are the same
    string, so the result does not depend on the sorting algorithm. *)
Fixpoint insert_sorted (x : string) (l : list string) : list string :=
  match l with
  | [] => [x]
  | y :: l' => if String.leb x y then x :: l else y :: insert_sorted x l'
  end.

Definition sorted (l : list string) : list string :=
  fold_right insert_sorted [] l.

End Py.

(* ===================================================================== *)
(** * Module-level tables and file-name utilities *)
(* ===================================================================== *)

Definition SENSOR_CODES : list string :=
  ["N39"; "S39"; "N24"; "S24"; "N12"; "S12"; "B4F"; "FF"].

Definition SENSOR_CODES_WITH_CHANNELS : list string :=
  ["N39x"; "N39y"; "N39z"; "S39x"; "S39y"; "S39z";
   "N24x"; "N24y"; "N24z"; "S24x"; "S24y"; "S24z";
   "N12x"; "N12y"; "N12z"; "S12x"; "S12y"; "S12z";
   "B4Fx"; "B4Fy"; "B4Fz"; "FFN"; "FFW"; "FFZ"].

(** [getFloor]: the digits of the sensor code, in order. *)
Definition getFloor (sensorCodeText : string) : string :=
  Py.filter_chars Py.isdigit sensorCodeText.

(** [getFloorCode]. The source has an [if]/[elif]/[elif] chain without an
    [else]: when no branch is taken, [letter] was never assigned and
    [return letter + numeric] raises [UnboundLocalError]. Indexing the
    empty string with [[0]] raises [IndexError]. *)
Definition getFloorCode (sensorCodeText : string) : result string :=
  match sensorCodeText with
  | EmptyString => Raise IndexError
  | String c0 _ =>
      if Ascii.eqb c0 "F" then Ok "GF"
      else if Ascii.eqb c0 "N" || Ascii.eqb c0 "S" then
        n <- Py.int (getFloor sensorCodeText) ;;
        Ok ("L" ++ Py.str (n + 1))%string
      else if Ascii.eqb c0 "B" then
        Ok ("B" ++ getFloor sensorCodeText)%string
      else Raise (UnboundLocalError "letter")
  end.

(** [getTimeText]: [(UTCHour, timestampText)] of a file name or path. *)
Definition getTimeText (inputFile : string) : string * string :=
  let filename := last (Py.split "/" inputFile) EmptyString in
  let timestampText := hd EmptyString (Py.split "." filename) in
  let UTCHour := substring 8 2 timestampText in
  (UTCHour, timestampText).

(** [sortFilesBySensorCode]: the loop over [SENSOR_CODES] appends, for each
    code, the sorted group of the files whose name contains the code. *)
Definition sortFilesBySensorCode (inputFileList : list string) : list string :=
  fold_left
    (fun sortedList code =>
       let fileGroup := filter (Py.str_in code) inputFileList in
       let sortedFileGroup := Py.sorted fileGroup in
       sortedList ++ sortedFileGroup)
    SENSOR_CODES [].

(** The body of [sortFiles] after [uniqueTimeTuples] has been built.
    Python does not fix the order in which [list(set(...))] enumerates the
    set, so the enumeration is an argument here. A call that reaches the
    end of the body without a [return] yields Python's [None]. *)
Definition sortFilesFrom (uniqueTimeTuples : list (string * string))
    (inputFileList : list string) : option (list string) :=
  let numHours := List.length uniqueTimeTuples in
  if (numHours =? 1)%nat then Some (sortFilesBySensorCode inputFileList)
  else if (numHours =? 2)%nat then
    let t0 := nth 0 uniqueTimeTuples (EmptyString, EmptyString) in
    let t1 := nth 1 uniqueTimeTuples (EmptyString, EmptyString) in
    let firstTime := if String.ltb (fst t0) (fst t1) then snd t0 else snd t1 in
    let firstFileList :=
      sortFilesBySensorCode (filter (Py.str_in firstTime) inputFileList) in
    let secondFileList :=
      sortFilesBySensorCode
        (filter (fun f => negb (Py.str_in firstTime f)) inputFileList) in
    Some (firstFileList ++ secondFileList)
  else None.

Definition timeTuple_eq_dec (x y : string * string) : {x = y} + {x <> y}.
Proof. decide equality; apply string_dec. Defined.

(** [u] is an enumeration of [set([getTimeText(file) for file in l])]:
    every tuple of the list once, in any order. *)
Definition enumerates (u : list (string * string)) (inputFileList : list string) : Prop :=
  Permutation u (nodup timeTuple_eq_dec (map getTimeText inputFileList)).

(** [sortFiles] with the set enumerated in order of first occurrence. *)
Definition sortFiles (inputFileList : list string) : option (list string) :=
  sortFilesFrom (nodup timeTuple_eq_dec (map getTimeText inputFileList)) inputFileList.

(** The sensor codes that occur in a file name. *)
Definition codes_in (f : string) : list string :=
  filter (fun code => Py.str_in code f) SENSOR_CODES.

(** File lists used as examples below. *)
Definition three_hour_files : list string :=
  ["20190926100000.ALZ.001.B4Fx.txt";
   "20190926110000.ALZ.001.B4Fx.txt";
   "20190926120000.ALZ.001.B4Fx.txt"].

Definition two_hour_files : list string :=
  ["20190926110000.ALZ.003.S39z.txt"; "20190926100000.ALZ.001.B4Fx.txt";
   "20190926100000.ALZ.003.S39z.txt"; "20190926110000.ALZ.004.FFN.txt"].

(* ===================================================================== *)
(** * Numbers, cells and frames *)
(* ===================================================================== *)

(** [float(z)] and the implicit conversion of an [int] operand in mixed
    arithmetic: the nearest binary64 number, ties to even. It is exact for
    every 32-bit count and for the integer constants of the source. (Python
    raises [OverflowError] beyond the range of binary64, where this
    conversion gives an infinity; no integer of the source is that large.) *)
Definition float_of_int (z : Z) : float :=
  SF2Prim (binary_normalize prec emax z 0 false).

(** A cell of a pandas column. *)
Inductive value : Type :=
| PyNone
| PyStr (s : string)
| PyInt (z : Z)
| PyFloat (f : float).

Definition Series : Type := list value.

(** A frame: its columns in order, each a name and a column of cells. *)
Definition DataFrame : Type := list (string * Series).

Definition column_names (df : DataFrame) : list string := map fst df.

(** [len(df)]: the number of rows. *)
Definition nrows (df : DataFrame) : nat :=
  match df with
  | [] => 0
  | (_, col) :: _ => List.length col
  end.

Fixpoint lookup (df : DataFrame) (name : string) : option Series :=
  match df with
  | [] => None
  | (k, col) :: df' => if String.eqb k name then Some col else lookup df' name
  end.

(** [df[name]] read: [KeyError] when the frame has no such column. *)
Definition getitem (df : DataFrame) (name : string) : result Series :=
  match lookup df name with
  | Some col => Ok col
  | None => Raise (KeyError name)
  end.

(** The column update of [df[name] = col]: an existing column is replaced
    in place, a new one is appended after the others. *)
Fixpoint set_column (df : DataFrame) (name : string) (col : Series) : DataFrame :=
  match df with
  | [] => [(name, col)]
  | (k, c) :: df' =>
      if String.eqb k name then (k, col) :: df'
      else (k, c) :: set_column df' name col
  end.

(** [df[name] = col] for a value with as many cells as the frame has rows.
    pandas raises [ValueError] for an array of another length; it accepts
    a [Series] of another length (aligned on the index) and any value when
    the frame has no rows (the frame takes the index of the value): these
    two paths are not part of this model, which raises there as well. *)
Definition setitem (df : DataFrame) (name : string) (col : Series) : result DataFrame :=
  if (List.length col =? nrows df)%nat then Ok (set_column df name col)
  else Raise (ValueError "Length of values does not match length of index").

(** A numeric cell read as a float (a missing cell reads as NaN). *)
Definition to_float (v : value) : result float :=
  match v with
  | PyFloat f => Ok f
  | PyInt z => Ok (float_of_int z)
  | PyNone => Ok nan
  | PyStr _ => Raise TypeError
  end.

Definition to_int (v : value) : result Z :=
  match v with
  | PyInt z => Ok z
  | _ => Raise TypeError
  end.

Definition floats_of (df : DataFrame) (name : string) : result (list float) :=
  col <- getitem df name ;; mapM to_float col.

Definition ints_of (df : DataFrame) (name : string) : result (list Z) :=
  col <- getitem df name ;; mapM to_int col.

(** [DataFrame.truncate(before, after)] on one column of a frame with the
    default index: the cells whose index label [i] satisfies
    [before <= i <= after], in order. *)
Fixpoint truncate_from {A : Type} (i before after : Z) (col : list A) : list A :=
  match col with
  | [] => []
  | x :: col' =>
      if (before <=? i)%Z && (i <=? after)%Z
      then x :: truncate_from (i + 1) before after col'
      else truncate_from (i + 1) before after col'
  end.

Definition truncate {A : Type} (before after : Z) (col : list A) : list A :=
  truncate_from 0 before after col.

(** The position of the first cell that satisfies [p]: [index[mask][0]] on
    a frame with the default index. *)
Fixpoint first_index {A : Type} (p : A -> bool) (l : list A) : option nat :=
  match l with
  | [] => None
  | x :: l' => if p x then Some 0 else option_map S (first_index p l')
  end.

(** [Series.min()] and [Series.max()] of a float column: NaN cells are
    skipped, and a column without any other cell gives NaN. Where several
    cells compare equal to the extremum (0.0 and -0.0 do), the earliest is
    returned here; the source only compares the result with [==] and takes
    its absolute value, which are the same for all of them. *)
Definition series_min (col : list float) : float :=
  match filter (fun x => negb (is_nan x)) col with
  | [] => nan
  | x :: xs => fold_left (fun m y => if (y <? m)%float then y else m) xs x
  end.

Definition series_max (col : list float) : float :=
  match filter (fun x => negb (is_nan x)) col with
  | [] => nan
  | x :: xs => fold_left (fun m y => if (m <? y)%float then y else m) xs x
  end.

(** The cells of a column that hold a number. *)
Definition numbers (col : list float) : list float :=
  filter (fun x => negb (is_nan x)) col.


(** The three-element list [[index, value, rounded value]] that [getStats]
    returns. *)
Record PeakStat : Type := mkPeakStat {
  index : nat;
  rawValue : float;
  roundedValue : float
}.

(* ===================================================================== *)
(** * The Conversion class *)
(* ===================================================================== *)

(** The instance constants that [Conversion.__init__] sets. *)
Definition lowcut : float := 0.05%float.
Definition highcut : Z := 40.
Definition fs : Z := 100.
Definition order : Z := 2.
Definition dt : float := (float_of_int 1 / float_of_int fs)%float.
Definition zeroPadLength : nat := 500.
Definition ignoredSamples : Z := 6000.

(** [setSensitivity]. *)
Definition setSensitivity (sensorCodeWithChannel : string) : result float :=
  let groundFloorSensorCodes :=
    filter (fun c => Py.str_in "F" c) SENSOR_CODES_WITH_CHANNELS in
  let upperFloorSensorCodes :=
    filter (fun c => negb (Py.str_in "F" c)) SENSOR_CODES_WITH_CHANNELS in
  if Py.list_in sensorCodeWithChannel groundFloorSensorCodes then Ok 1.25%float
  else if Py.list_in sensorCodeWithChannel upperFloorSensorCodes then Ok 0.625%float
  else Raise (ValueError "Sensitivity must contain non-null value.").

(** [convertCountToG], with [self.sensitivity] as an argument. *)
Definition convertCountToG (sensitivity : float) (count : Z) : float :=
  (float_of_int count * (2.5 / float_of_int 8388608)
   * (float_of_int 1 / sensitivity))%float.

Definition convertGToMetric (g : float) : float := (g * 9.80665)%float.

Definition convertMToCm (m : float) : float := (m * float_of_int 100)%float.

(** [getZeroPaddedDf]: a new frame that holds the padded version of the
    columns named in [columns], and no other column. The names of
    [columns] are distinct in the source, which passes ['timestamp', 'g']. *)
Definition getZeroPaddedDf (df : DataFrame) (columns : list string) : result DataFrame :=
  let zeros := repeat (PyInt 0) zeroPadLength in
  let nullList := repeat PyNone zeroPadLength in
  paddedColumns <-
    mapM (fun column =>
            col <- getitem df column ;;
            if String.eqb column "timestamp"
            then Ok (nullList ++ col ++ nullList)
            else Ok (zeros ++ col ++ zeros))
         columns ;;
  Ok (combine columns paddedColumns).

(** The loop of [integrateSeries] over the zipped pairs: each step appends
    [dt * (z[0] + z[1]) / 2. + integratedList[-1]]. *)
Fixpoint integrate_loop (dt : float) (zipped : list (float * float))
    (integratedList : list float) : list float :=
  match zipped with
  | [] => integratedList
  | z :: zipped' =>
      let integrated :=
        (dt * (fst z + snd z) / 2 + last integratedList 0)%float in
      integrate_loop dt zipped' (integratedList ++ [integrated])
  end.

(** [integrateSeries], with [self.dt] as an argument. The first cell is the
    integer 0 of the source read as the float 0. *)
Definition integrateSeries (dt : float) (inputSeries : list float) : list float :=
  let inputList := inputSeries in
  let inputListFromIndex1 := tl inputList in
  let zipped := combine inputList inputListFromIndex1 in
  integrate_loop dt zipped [0%float].

(** [removeExtraneousSamples]: every column is truncated to the index
    labels [ignoredSamples .. 40000 + zeroPadLength] and then reindexed. *)
Definition endIndex : Z := 40000 + Z.of_nat zeroPadLength.

Definition removeExtraneousSamples (df : DataFrame) : DataFrame :=
  map (fun kc => (fst kc, truncate ignoredSamples endIndex (snd kc))) df.

(** The window in natural numbers: 6000 cells are dropped at the head and
    at most 34501 are kept. *)
Definition droppedHead : nat := Z.to_nat ignoredSamples.
Definition keptLength : nat := Z.to_nat (endIndex + 1 - ignoredSamples).

Section Conversion.

(** Library functions that the class calls and this repository does not
    define: [scipy.signal.detrend(x, type='constant')],
    [scipy.signal.butter(order, Wn, btype)], [scipy.signal.lfilter(b, a, x)]
    and the built-in [round(x, ndigits)] on floats. *)
Variable detrend : list float -> list float.
Variable butter : Z -> list float -> string -> list float * list float.
Variable lfilter : list float -> list float -> list float -> list float.
Variable round : float -> Z -> float.

(** [butterPass]: with a filter type other than ['band'] and ['high'],
    [b] and [a] are never assigned and the logging line raises. *)
Definition butterPass (filterType : string) : result (list float * list float) :=
  let nyq := (0.5 * float_of_int fs)%float in
  let low := (lowcut / nyq)%float in
  let high := (float_of_int highcut / nyq)%float in
  if String.eqb filterType "band" then Ok (butter order [low; high] "band")
  else if String.eqb filterType "high" then Ok (butter order [low] "high")
  else Raise (UnboundLocalError "b").

Definition butterBandpassFilter (df : DataFrame) (inputColumn outputColumn : string)
  : result DataFrame :=
  ba <- butterPass "band" ;;
  x <- floats_of df inputColumn ;;
  setitem df outputColumn (map PyFloat (lfilter (fst ba) (snd ba) x)).

Definition butterHighpassFilter (df : DataFrame) (inputColumn outputColumn : string)
  : result DataFrame :=
  ba <- butterPass "high" ;;
  x <- floats_of df inputColumn ;;
  setitem df outputColumn (map PyFloat (lfilter (fst ba) (snd ba) x)).

(** [getStats] on the cells of the column (the mean is computed by the
    source for a debug message only). *)
Definition peakInfo (col : list float) : result PeakStat :=
  let minVal := series_min col in
  let maxVal := series_max col in
  match first_index (fun x => (x =? minVal)%float) col with
  | None => Raise IndexError
  | Some minValIndex =>
      match first_index (fun x => (x =? maxVal)%float) col with
      | None => Raise IndexError
      | Some maxValIndex =>
          let minPair := (minValIndex, minVal) in
          let maxPair := (maxValIndex, maxVal) in
          let peak :=
            if (abs (snd maxPair) <? abs (snd minPair))%float
            then minPair else maxPair in
          Ok (mkPeakStat (fst peak) (snd peak) (round (snd peak) 4))
      end
  end.

Definition getStats (df : DataFrame) (columnName : string) : result PeakStat :=
  col <- floats_of df columnName ;; peakInfo col.

(** One derived column: [df[outputColumn] = f(df[inputColumn])]. *)
Definition derive (df : DataFrame) (inputColumn outputColumn : string)
    (f : list float -> list float) : result DataFrame :=
  x <- floats_of df inputColumn ;;
  setitem df outputColumn (map PyFloat (f x)).

(** The frame manipulation of [Conversion.__init__], statement by
    statement, up to the truncation (the [count] column holds integers:
    [getCleanDf] casts it to int32)... *)
Definition stages_before_truncation (sensitivity : float) (df : DataFrame)
  : result DataFrame :=
  counts <- ints_of df "count" ;;
  df <- setitem df "g" (map PyFloat (map (convertCountToG sensitivity) counts)) ;;
  df <- getZeroPaddedDf df ["timestamp"; "g"] ;;
  df <- derive df "g" "offset_g" detrend ;;
  df <- derive df "offset_g" "acc_ms2" (map convertGToMetric) ;;
  df <- butterBandpassFilter df "offset_g" "bandpassed_g" ;;
  df <- butterBandpassFilter df "acc_ms2" "bandpassed_ms2" ;;
  derive df "bandpassed_ms2" "velocity_ms" (integrateSeries dt).

(** ... and after it. *)
Definition stages_after_truncation (df : DataFrame) : result DataFrame :=
  df <- derive df "velocity_ms" "detrended_velocity_ms" detrend ;;
  df <- derive df "detrended_velocity_ms" "detrended_velocity_cms" (map convertMToCm) ;;
  df <- derive df "detrended_velocity_ms" "displacement_m" (integrateSeries dt) ;;
  df <- derive df "displacement_m" "detrended_displacement_m" detrend ;;
  df <- butterHighpassFilter df "detrended_displacement_m" "highpassed_displacement_m" ;;
  derive df "highpassed_displacement_m" "highpassed_displacement_cm" (map convertMToCm).

(** The instance that the constructor leaves behind. *)
Record Conversion : Type := mkConversion {
  self_df : DataFrame;
  self_sensitivity : float;
  accOffsetStats : PeakStat;
  accBandpassedStats : PeakStat;
  velStats : PeakStat;
  dispStats : PeakStat
}.

(** The frame that the constructor leaves in [self.df]. *)
Definition Conversion_frame (sensitivity : float) (df : DataFrame) : result DataFrame :=
  df <- stages_before_truncation sensitivity df ;;
  let df := removeExtraneousSamples df in
  stages_after_truncation df.

Definition Conversion_init (df : DataFrame) (sensorCodeWithChannel : string)
  : result Conversion :=
  sensitivity <- setSensitivity sensorCodeWithChannel ;;
  df <- Conversion_frame sensitivity df ;;
  s1 <- getStats df "offset_g" ;;
  s2 <- getStats df "bandpassed_g" ;;
  s3 <- getStats df "detrended_velocity_cms" ;;
  s4 <- getStats df "highpassed_displacement_cm" ;;
  Ok (mkConversion df sensitivity s1 s2 s3 s4).

End Conversion.

(** The thirteen columns of [self.df] once the constructor has run. *)
Definition final_columns : list string :=
  ["timestamp"; "g"; "offset_g"; "acc_ms2"; "bandpassed_g"; "bandpassed_ms2";
   "velocity_ms"; "detrended_velocity_ms"; "detrended_velocity_cms";
   "displacement_m"; "detrended_displacement_m"; "highpassed_displacement_m";
   "highpassed_displacement_cm"].




(** The frame that [ProcessedFromTxtFile.getCleanDf] builds. *)
Definition cleanDf (timestampSeries : Series) (countSeries : list Z) : DataFrame :=
  [("timestamp", timestampSeries); ("count", map PyInt countSeries)].

(** Frames and identity stand-ins for the library functions, for the
    examples below. *)
Definition tie_frame : DataFrame :=
  [("offset_g", map PyFloat [1; -3; 2; 3]%float)].

Definition repeated_peak_frame : DataFrame :=
  [("offset_g", map PyFloat [2; -5; 1; -5]%float)].

Definition raw_frame : DataFrame :=
  [("timestamp", [PyStr "2019-09-26T10:59:30.000000"; PyStr "2019-09-26T10:59:30.010000"]);
   ("count", [PyInt (-39527); PyInt 8250])].

Definition long_raw_frame : DataFrame :=
  cleanDf (repeat (PyStr "2019-09-26T10:59:30.000000") (Z.to_nat 5002))
          (repeat 8250%Z (Z.to_nat 5002)).

Definition round_id (x : float) (ndigits : Z) : float := x.
Definition detrend_id (x : list float) : list float := x.
Definition butter_none (n : Z) (Wn : list float) (btype : string)
  : list float * list float := ([], []).
Definition lfilter_id (b a x : list float) : list float := x.

(* ===================================================================== *)
(** * Further functions of the module *)
(* ===================================================================== *)

Module Str.

(** [s[-1]]: the last character, when there is one. *)
Fixpoint last_char (s : string) : option ascii :=
  match s with
  | EmptyString => None
  | String c EmptyString => Some c
  | String _ s' => last_char s'
  end.

(** [s[:-1]]: all characters but the last. *)
Fixpoint drop_last (s : string) : string :=
  match s with
  | EmptyString => EmptyString
  | String _ EmptyString => EmptyString
  | String c s' => String c (drop_last s')
  end.

(** [c.islower()] and [c.upper()] on an ASCII character. *)
Definition islower (c : ascii) : bool :=
  (97 <=? nat_of_ascii c)%nat && (nat_of_ascii c <=? 122)%nat.

Definition upper (c : ascii) : ascii :=
  if islower c then ascii_of_nat (nat_of_ascii c - 32) else c.

(** [s.split(sep)[0]] for a separator string that is not empty: the part
    of [s] before the first occurrence of [sep], all of [s] when there is
    none. (Python raises [ValueError] for the empty separator; the source
    only splits on ['.' + extension].) *)
Fixpoint split_first (sep s : string) : string :=
  if prefix sep s then EmptyString
  else match s with
       | EmptyString => EmptyString
       | String c s' => String c (split_first sep s')
       end.

End Str.

(** [getSensorCodeInfo]: [(sensorCode, sensorCodeWithChannel)] of a file
    name or path. Indexing an empty token with [[-1]] raises [IndexError]. *)
Definition getSensorCodeInfo (inputFile : string) : result (string * string) :=
  let inputFileExt := last (Py.split "." inputFile) EmptyString in
  let inputFileBase := Str.split_first ("." ++ inputFileExt)%string inputFile in
  let sensorCodeWithChannel := last (Py.split "." inputFileBase) EmptyString in
  match Str.last_char sensorCodeWithChannel with
  | None => Raise IndexError
  | Some lastLetter =>
      let sensorCode :=
        if Str.islower lastLetter then Str.drop_last sensorCodeWithChannel
        else sensorCodeWithChannel in
      Ok (sensorCode, sensorCodeWithChannel)
  end.

(** [getAxis]: the lower-case channel letter in upper case, or the axis
    that [dirDict] gives for a far-field direction letter; [KeyError] for
    any other last letter, [IndexError] for the empty string. *)
Definition getAxis (sensorCodeWithChannel : string) : result string :=
  match Str.last_char sensorCodeWithChannel with
  | None => Raise IndexError
  | Some lastLetter =>
      if Py.list_in (String lastLetter EmptyString) ["x"; "y"; "z"]
      then Ok (String (Str.upper lastLetter) EmptyString)
      else if Ascii.eqb lastLetter "N" then Ok "X"
      else if Ascii.eqb lastLetter "W" then Ok "Y"
      else if Ascii.eqb lastLetter "Z" then Ok "Z"
      else Raise (KeyError (String lastLetter EmptyString))
  end.

(** The position in [SENSOR_CODES] of the first code that occurs in a file
    name (the number of codes when none occurs). *)
Definition code_rank (f : string) : nat :=
  match first_index (fun code => Py.str_in code f) SENSOR_CODES with
  | Some i => i
  | None => List.length SENSOR_CODES
  end.

(** Ascending order of names. *)
Definition name_le (f g : string) : Prop := String.leb f g = true.

(** The report order of two files: by sensor code first, by name second. *)
Definition report_le (f g : string) : Prop :=
  code_rank f < code_rank g \/
  (code_rank f = code_rank g /\ String.leb f g = true).

(** Two files of the same hour but of different minutes. *)
Definition same_hour_files : list string :=
  ["20190926100000.ALZ.001.B4Fx.txt"; "20190926103000.ALZ.001.B4Fx.txt"].

(** The cell that [getZeroPaddedDf] pads a column with: the null marker
    for the column named ['timestamp'], the integer 0 for any other (in a
    column of floats pandas stores it as 0.0; [to_float] reads it so). *)
Definition pad_cell (column : string) : value :=
  if String.eqb column "timestamp" then PyNone else PyInt 0.


(* ===================================================================== *)
(** * The user interface: pairing files, the statistics table, the plots *)
(* ===================================================================== *)

(** [c in f] for the tuple [f = (file, sensorCodeWithChannel)]: [c] equals
    one of its two items. *)
Definition tuple_in (c : string) (f : string * string) : bool :=
  String.eqb c (fst f) || String.eqb c (snd f).

(** [PrimaryUI.pairDeviceTxtFiles], on the two fields that it reads and the
    one that it appends to: the new value of [self.pairedTxtFileList]. *)
Definition pairDeviceTxtFiles (txtFileList : list string) (txtFileCount : Z)
    (pairedTxtFileList : list (list (string * string)))
  : result (list (list (string * string))) :=
  if (txtFileCount =? 48)%Z then
    txtFileSensorCodeList <-
      mapM (fun file => info <- getSensorCodeInfo file ;; Ok (file, snd info))
           txtFileList ;;
    Ok (fold_left
          (fun paired c =>
             let pairedList := filter (tuple_in c) txtFileSensorCodeList in
             paired ++ [pairedList])
          SENSOR_CODES_WITH_CHANNELS pairedTxtFileList)
  else Ok pairedTxtFileList.

(** The sensor code with channel that [getSensorCodeInfo] reads from a file
    name (the empty string where it raises). *)
Definition channel_of (file : string) : string :=
  match getSensorCodeInfo file with
  | Ok info => snd info
  | Raise _ => EmptyString
  end.

Definition pair_eq_dec (x y : string * string) : {x = y} + {x <> y}.
Proof. decide equality; apply string_dec. Defined.

(** [StatsTable.columnHeaders]. *)
Definition columnHeaders : list string :=
  ["Ch"; "ID"; "Floor"; "Axis"; "Offset Acc (g)"; "Acc (g)"; "Vel (cm/s)"; "Disp (cm)"].

(** [pd.DataFrame(columns=...)]: the named columns, no rows. *)
Definition empty_frame (columns : list string) : DataFrame :=
  map (fun k => (k, ([] : Series))) columns.

(** [df[name] = col] for a list [col], where the frame may have no rows
    yet: a frame without rows takes the index of the value, and its other
    columns are filled with NaN; a frame with rows behaves as [setitem]. *)
Definition setitem_list (df : DataFrame) (name : string) (col : Series)
  : result DataFrame :=
  if (nrows df =? 0)%nat
  then Ok (set_column
             (map (fun kc => (fst kc, repeat (PyFloat nan) (List.length col))) df)
             name col)
  else setitem df name col.

(** [StatsTable.populateStaticColumns] on [self.df]. *)
Definition populateStaticColumns (df : DataFrame) : result DataFrame :=
  let channels := map (fun x => PyInt (Z.of_nat x)) (seq 1 24) in
  df <- setitem_list df "Ch" channels ;;
  df <- setitem_list df "ID" (map PyStr SENSOR_CODES_WITH_CHANNELS) ;;
  floors <- mapM getFloorCode SENSOR_CODES_WITH_CHANNELS ;;
  df <- setitem_list df "Floor" (map PyStr floors) ;;
  axes <- mapM getAxis SENSOR_CODES_WITH_CHANNELS ;;
  setitem_list df "Axis" (map PyStr axes).

(** [StatsTable.__init__]: the frame left in [self.df]. *)
Definition StatsTable_init : result DataFrame :=
  populateStaticColumns (empty_frame columnHeaders).

(** One cell of [self.df['ID'] == sensorCodeWithChannel]. *)
Definition cell_is (sensorCodeWithChannel : string) (v : value) : bool :=
  match v with
  | PyStr s => String.eqb s sensorCodeWithChannel
  | _ => false
  end.

(** [df.loc[mask, column] = value] on one column. *)
Definition set_where (mask : list bool) (v : value) (col : Series) : Series :=
  map (fun mx : bool * value => if fst mx then v else snd mx) (combine mask col).

(** [StatsTable.updateStatsDf]:
    [self.df.loc[self.df['ID'] == sensorCodeWithChannel, statsColumnName] = value].
    A column that the frame does not have yet is added, with NaN in the
    rows that the mask leaves out. [value] is a float in the source. *)
Definition updateStatsDf (df : DataFrame) (sensorCodeWithChannel statsColumnName : string)
    (v : float) : result DataFrame :=
  ids <- getitem df "ID" ;;
  let mask := map (cell_is sensorCodeWithChannel) ids in
  match lookup df statsColumnName with
  | Some col => Ok (set_column df statsColumnName (set_where mask (PyFloat v) col))
  | None =>
      Ok (set_column df statsColumnName
            (set_where mask (PyFloat v) (repeat (PyFloat nan) (List.length ids))))
  end.

(** [StatsTable.getColumnMax]: [self.df[statsColumnName].max()] on a column
    of numbers. (On a column of strings pandas returns the greatest string;
    the source asks for the four statistics columns only, and this model
    raises for a string cell.) *)
Definition getColumnMax (df : DataFrame) (statsColumnName : string) : result float :=
  col <- floats_of df statsColumnName ;; Ok (series_max col).

(** [self.statsColumnNames = self.statsTable.columnHeaders[-4:]]. *)
Definition statsColumnNames : list string :=
  skipn (List.length columnHeaders - 4) columnHeaders.

(** The four peak values that [updateStatsTable] reads from the conversion
    object, [stats[2]] of each, in the order of [statsColumnNames]. *)
Definition peakVals (conversionObject : Conversion) : list float :=
  [roundedValue (accOffsetStats conversionObject);
   roundedValue (accBandpassedStats conversionObject);
   roundedValue (velStats conversionObject);
   roundedValue (dispStats conversionObject)].

(** [PrimaryUI.updateStatsTable] on the frame of [self.statsTable];
    [sensorCodeWithChannel] is [conversionObject.sensorCodeWithChannel]. *)
Definition updateStatsTable (statsTable : DataFrame) (sensorCodeWithChannel : string)
    (conversionObject : Conversion) : result DataFrame :=
  let accOffsetPeakVal := roundedValue (accOffsetStats conversionObject) in
  let accBandpassedPeakVal := roundedValue (accBandpassedStats conversionObject) in
  let velPeakVal := roundedValue (velStats conversionObject) in
  let dispPeakVal := roundedValue (dispStats conversionObject) in
  t <- updateStatsDf statsTable sensorCodeWithChannel
         (nth 0 statsColumnNames EmptyString) accOffsetPeakVal ;;
  t <- updateStatsDf t sensorCodeWithChannel
         (nth 1 statsColumnNames EmptyString) accBandpassedPeakVal ;;
  t <- updateStatsDf t sensorCodeWithChannel
         (nth 2 statsColumnNames EmptyString) velPeakVal ;;
  updateStatsDf t sensorCodeWithChannel
    (nth 3 statsColumnNames EmptyString) dispPeakVal.

(** [PrimaryUI.getStatsMaxValues]. *)
Definition getStatsMaxValues (statsTable : DataFrame) : result (list float) :=
  mapM (getColumnMax statsTable) statsColumnNames.

(** The cell of a column at a row. *)
Definition cell_at (df : DataFrame) (name : string) (i : nat) : option value :=
  match lookup df name with
  | Some col => nth_error col i
  | None => None
  end.

(** What the statistics table is between two calls: the eight columns of
    [columnHeaders], the sensor codes in [ID], and 24 floats (NaN where
    nothing was recorded) in each statistics column. *)
Definition stats_table (t : DataFrame) : Prop :=
  column_names t = columnHeaders /\
  lookup t "ID" = Some (map PyStr SENSOR_CODES_WITH_CHANNELS) /\
  forall k, In k statsColumnNames ->
    exists col, lookup t k = Some (map PyFloat col) /\ List.length col = 24.

(** The frame that [StatsTable.__init__] leaves. *)
Definition fresh_table : DataFrame :=
  match StatsTable_init with
  | Ok t => t
  | Raise _ => []
  end.

(** A conversion object with the given four rounded peak values. *)
Definition conversion_with (a b v d : float) : Conversion :=
  mkConversion [] 1.25 (mkPeakStat 0 a a) (mkPeakStat 0 b b)
               (mkPeakStat 0 v v) (mkPeakStat 0 d d).

(** The four canvases of the comparison plots. *)
Inductive ComparisonCanvas : Type :=
| NXcomparisonCanvas
| NYcomparisonCanvas
| SXcomparisonCanvas
| SYcomparisonCanvas.

(** [all(i in code for i in chars)]. *)
Definition all_in (chars : list string) (code : string) : bool :=
  forallb (fun i => Py.str_in i code) chars.

(** [PrimaryUI.drawComparisonPlot]: the calls of [plotComparisonGraph] that
    it makes, in order, each with its canvas and its y limit;
    [displacementMaxVal] is [self.statsColumnMaxValues[-1]]. *)
Definition drawComparisonPlot (displacementMaxVal : float)
    (sensorCodeWithChannel : string) : list (ComparisonCanvas * float) :=
  let yLimit := (displacementMaxVal + displacementMaxVal * 0.15)%float in
  if all_in ["N"; "x"] sensorCodeWithChannel then
    [(NXcomparisonCanvas, yLimit)]
  else if all_in ["S"; "x"] sensorCodeWithChannel then
    [(SXcomparisonCanvas, yLimit)]
  else if all_in ["N"; "y"] sensorCodeWithChannel then
    [(NYcomparisonCanvas, yLimit)]
  else if all_in ["S"; "y"] sensorCodeWithChannel then
    [(SYcomparisonCanvas, yLimit)]
  else if all_in ["B"; "x"] sensorCodeWithChannel then
    [(SXcomparisonCanvas, yLimit); (NXcomparisonCanvas, yLimit)]
  else if all_in ["B"; "y"] sensorCodeWithChannel then
    [(SYcomparisonCanvas, yLimit); (NYcomparisonCanvas, yLimit)]
  else [].

(** The corner letter and the axis letter of a canvas. *)
Definition canvas_corner (cv : ComparisonCanvas) : string :=
  match cv with
  | NXcomparisonCanvas | NYcomparisonCanvas => "N"
  | SXcomparisonCanvas | SYcomparisonCanvas => "S"
  end.

Definition canvas_axis (cv : ComparisonCanvas) : string :=
  match cv with
  | NXcomparisonCanvas | SXcomparisonCanvas => "x"
  | NYcomparisonCanvas | SYcomparisonCanvas => "y"
  end.

(** The column after [v] was recorded for a sensor: [v] in the rows of
    that sensor, the former cells elsewhere. [put_peak] is one row of it,
    given the code of the row and its former cell. *)
Definition put_peak (code : string) (v : float) (ix : string * float) : float :=
  if String.eqb (fst ix) code then v else snd ix.

Definition record_peak (code : string) (v : float) (col : list float) : list float :=
  map (put_peak code v) (combine SENSOR_CODES_WITH_CHANNELS col).

(** A statistics table, column by column. *)
Definition table_of (ch fl ax : Series) (c0 c1 c2 c3 : list float) : DataFrame :=
  [("Ch", ch); ("ID", map PyStr SENSOR_CODES_WITH_CHANNELS); ("Floor", fl);
   ("Axis", ax); ("Offset Acc (g)", map PyFloat c0); ("Acc (g)", map PyFloat c1);
   ("Vel (cm/s)", map PyFloat c2); ("Disp (cm)", map PyFloat c3)].

(** The axis of a canvas as [getAxis] names it. *)
Definition canvas_axis_name (cv : ComparisonCanvas) : string :=
  match cv with
  | NXcomparisonCanvas | SXcomparisonCanvas => "X"
  | NYcomparisonCanvas | SYcomparisonCanvas => "Y"
  end.

(* ===================================================================== *)
(** * Properties of the file-name utilities *)
(* ===================================================================== *)

Lemma list_in_true (x : string) (l : list string) :
  Py.list_in x l = true <-> In x l.
Proof.
  unfold Py.list_in. rewrite existsb_exists. split.
  - intros [y [Hy Heq]]. apply String.eqb_eq in Heq. now subst.
  - intros H. exists x. split; [exact H | apply String.eqb_refl].
Qed.

Lemma list_in_filter (p : string -> bool) (x : string) (l : list string) :
  Py.list_in x (filter p l) = true <-> In x l /\ p x = true.
Proof. rewrite list_in_true. apply filter_In. Qed.

Lemma list_in_filter_false (p : string -> bool) (x : string) (l : list string) :
  Py.list_in x (filter p l) = false <-> ~ (In x l /\ p x = true).
Proof.
  rewrite <- list_in_filter. destruct (Py.list_in x (filter p l)); split; intros H;
    try reflexivity; try discriminate; try (intros H'; discriminate).
  exfalso. now apply H.
Qed.




Example getFloorCode_N39x : getFloorCode "N39x" = Ok "L40".
Proof. reflexivity. Qed.

Example getFloorCode_B4Fx : getFloorCode "B4Fx" = Ok "B4".
Proof. reflexivity. Qed.

Example getFloorCode_FFN : getFloorCode "FFN" = Ok "GF".
Proof. reflexivity. Qed.

Example getFloorCode_other : getFloorCode "X12y" = Raise (UnboundLocalError "letter").
Proof. reflexivity. Qed.

(** A token that starts with ['N'] and has no digit: [int('')] raises. *)
Example getFloorCode_no_digit :
  getFloorCode "Nx" = Raise (ValueError "invalid literal for int() with base 10").
Proof. reflexivity. Qed.

(** The values of [getTimeText] that the test-suite records. *)
Example getTimeText_path :
  getTimeText
    "/home/grm/acc-data-conversion/working/2019-09-26T135930/20190926110000.ALZ.003.S39z.txt"
  = ("11", "20190926110000").
Proof. reflexivity. Qed.

(** C8. With a number of distinct time tuples other than 1 and 2, the body
    of [sortFiles] reaches its end without a [return]: the call yields
    [None], whatever the order in which the set is enumerated. No error is
    signalled. *)
Theorem sortFiles_other_span_returns_None
    (uniqueTimeTuples : list (string * string)) (inputFileList : list string) :
  List.length uniqueTimeTuples <> 1%nat ->
  List.length uniqueTimeTuples <> 2%nat ->
  sortFilesFrom uniqueTimeTuples inputFileList = None.
Proof.
  intros H1 H2. unfold sortFilesFrom.
  apply Nat.eqb_neq in H1, H2. now rewrite H1, H2.
Qed.

Lemma sortFiles_other_span_witness :
  List.length (nodup timeTuple_eq_dec (map getTimeText three_hour_files)) <> 1%nat /\
  List.length (nodup timeTuple_eq_dec (map getTimeText three_hour_files)) <> 2%nat /\
  sortFiles three_hour_files = None.
Proof.
  assert (H1 : List.length (nodup timeTuple_eq_dec (map getTimeText three_hour_files)) <> 1%nat)
    by (vm_compute; discriminate).
  assert (H2 : List.length (nodup timeTuple_eq_dec (map getTimeText three_hour_files)) <> 2%nat)
    by (vm_compute; discriminate).
  split; [exact H1 | split; [exact H2 |]].
  exact (sortFiles_other_span_returns_None _ three_hour_files H1 H2).
Defined.

Example sortFiles_empty : sortFiles [] = None.
Proof. reflexivity. Qed.

(* ===================================================================== *)
(** * Sensitivity and the conversion of counts *)
(* ===================================================================== *)

(** C5. [setSensitivity] on any string: 1.25 for a code of the sensor table
    that contains ['F'] (the far-field and ground-floor codes), 0.625 for
    every other code of the table, and for a string that is not in the
    table the [ValueError] that the specification names InvalidSensitivity. *)
Theorem setSensitivity_by_code (sensorCodeWithChannel : string) :
  (In sensorCodeWithChannel SENSOR_CODES_WITH_CHANNELS ->
   Py.str_in "F" sensorCodeWithChannel = true ->
   setSensitivity sensorCodeWithChannel = Ok 1.25%float) /\
  (In sensorCodeWithChannel SENSOR_CODES_WITH_CHANNELS ->
   Py.str_in "F" sensorCodeWithChannel = false ->
   setSensitivity sensorCodeWithChannel = Ok 0.625%float) /\
  (~ In sensorCodeWithChannel SENSOR_CODES_WITH_CHANNELS ->
   setSensitivity sensorCodeWithChannel =
   Raise (ValueError "Sensitivity must contain non-null value.")).
Proof.
  unfold setSensitivity. repeat split.
  - intros Hin HF.
    assert (H : Py.list_in sensorCodeWithChannel
                  (filter (fun c => Py.str_in "F" c) SENSOR_CODES_WITH_CHANNELS) = true)
      by (apply list_in_filter; split; assumption).
    now rewrite H.
  - intros Hin HF.
    assert (H1 : Py.list_in sensorCodeWithChannel
                   (filter (fun c => Py.str_in "F" c) SENSOR_CODES_WITH_CHANNELS) = false).
    { apply list_in_filter_false. intros [_ H]. congruence. }
    assert (H2 : Py.list_in sensorCodeWithChannel
                   (filter (fun c => negb (Py.str_in "F" c)) SENSOR_CODES_WITH_CHANNELS) = true).
    { apply list_in_filter. split; [assumption | now rewrite HF]. }
    now rewrite H1, H2.
  - intros Hnot.
    assert (H1 : Py.list_in sensorCodeWithChannel
                   (filter (fun c => Py.str_in "F" c) SENSOR_CODES_WITH_CHANNELS) = false).
    { apply list_in_filter_false. intros [H _]. contradiction. }
    assert (H2 : Py.list_in sensorCodeWithChannel
                   (filter (fun c => negb (Py.str_in "F" c)) SENSOR_CODES_WITH_CHANNELS) = false).
    { apply list_in_filter_false. intros [H _]. contradiction. }
    now rewrite H1, H2.
Qed.

(** The assertions of [test_setSensitivity], and a string outside the table. *)
Example setSensitivity_tests :
  setSensitivity "B4Fx" = Ok 1.25%float /\ setSensitivity "FFN" = Ok 1.25%float /\
  setSensitivity "N39y" = Ok 0.625%float /\ setSensitivity "S12z" = Ok 0.625%float /\
  setSensitivity "XFx" = Raise (ValueError "Sensitivity must contain non-null value.").
Proof. repeat split; reflexivity. Qed.

(** The codes of the table that contain ['F'] are the three ground-floor
    channels and the three far-field channels. *)
Example groundFloorSensorCodes_value :
  filter (fun c => Py.str_in "F" c) SENSOR_CODES_WITH_CHANNELS
  = ["B4Fx"; "B4Fy"; "B4Fz"; "FFN"; "FFW"; "FFZ"].
Proof. reflexivity. Qed.

(** The integer constants of the formula convert to floats exactly. *)
Lemma float_of_int_constants :
  float_of_int 8388608 = 8388608%float /\ float_of_int 1 = 1%float /\
  float_of_int 100 = 100%float /\ float_of_int 2 = 2%float.
Proof. repeat split; vm_compute; reflexivity. Qed.

(** C4. For every integer count, [convertCountToG] is
    [count * (2.5 / 8388608) * (1 / sensitivity)] in binary64 arithmetic,
    evaluated from left to right; with sensitivity 1.25 the counts -39527
    and 8250 give the two values that [test_convertCountToG] records. *)
Theorem convertCountToG_formula :
  (forall (sensitivity : float) (c : Z),
     convertCountToG sensitivity c
     = (float_of_int c * (2.5 / 8388608) * (1 / sensitivity))%float) /\
  convertCountToG 1.25 (-39527) = (-0.009423971176147461)%float /\
  convertCountToG 1.25 8250 = 0.0019669532775878906%float.
Proof.
  destruct float_of_int_constants as [H23 [H1 _]].
  split; [| split].
  - intros sensitivity c. unfold convertCountToG. now rewrite H23, H1.
  - vm_compute. reflexivity.
  - vm_compute. reflexivity.
Qed.

(** The assertion of [test_convertGToMetric]. *)
Example convertGToMetric_test :
  convertGToMetric 0.07916 = 0.7762944139999999%float.
Proof. vm_compute. reflexivity. Qed.

(** [self.dt] is the float nearest to 0.01. *)
Example dt_value : dt = 0.01%float.
Proof. vm_compute. reflexivity. Qed.

(* ===================================================================== *)
(** * Integration *)
(* ===================================================================== *)

(** Addition of binary64 numbers is commutative. *)
Lemma float_add_comm (x y : float) : (x + y = y + x)%float.
Proof.
  apply Prim2SF_inj. rewrite !add_spec.
  unfold SF64add, SFadd.
  destruct (Prim2SF x) as [sx | sx | | sx mx ex], (Prim2SF y) as [sy | sy | | sy my ey];
    try reflexivity;
    try (destruct sx, sy; reflexivity).
  rewrite (Z.min_comm ey ex). f_equal. apply Z.add_comm.
Qed.

Lemma last_is_nth {A : Type} (l : list A) (d : A) :
  last l d = nth (List.length l - 1) l d.
Proof.
  induction l as [| a l IH]; [reflexivity |].
  destruct l as [| b l]; [reflexivity |].
  change (last (a :: b :: l) d) with (last (b :: l) d). rewrite IH.
  cbn [List.length].
  replace (S (S (List.length l)) - 1) with (S (S (List.length l) - 1)) by lia.
  reflexivity.
Qed.

Lemma nth_combine {A B : Type} (l1 : list A) (l2 : list B) (k : nat) (d1 : A) (d2 : B) :
  k < List.length l1 -> k < List.length l2 ->
  nth k (combine l1 l2) (d1, d2) = (nth k l1 d1, nth k l2 d2).
Proof.
  revert l2 k. induction l1 as [| a l1 IH]; intros [| b l2] [| k] H1 H2;
    cbn [List.length] in *; try lia; [reflexivity |].
  cbn [combine nth]. apply IH; lia.
Qed.

Lemma nth_tl {A : Type} (l : list A) (k : nat) (d : A) :
  nth k (tl l) d = nth (S k) l d.
Proof. destruct l; [now destruct k | reflexivity]. Qed.

Lemma length_tl {A : Type} (l : list A) : List.length (tl l) = List.length l - 1.
Proof. destruct l; cbn [tl List.length]; lia. Qed.

Section IntegrateLoop.

Variable h : float.

Lemma integrate_loop_length (zipped : list (float * float)) (acc : list float) :
  List.length (integrate_loop h zipped acc) = List.length acc + List.length zipped.
Proof.
  revert acc. induction zipped as [| z zs IH]; intros acc; cbn [integrate_loop List.length].
  - lia.
  - rewrite IH, length_app. cbn [List.length]. lia.
Qed.

(** The loop only appends: the cells already computed stay in place. *)
Lemma integrate_loop_prefix (zipped : list (float * float)) (acc : list float)
    (i : nat) (d : float) :
  i < List.length acc -> nth i (integrate_loop h zipped acc) d = nth i acc d.
Proof.
  revert acc. induction zipped as [| z zs IH]; intros acc Hi; cbn [integrate_loop].
  - reflexivity.
  - rewrite IH by (rewrite length_app; cbn [List.length]; lia).
    now apply app_nth1.
Qed.

(** Each appended cell is the trapezoid of its pair plus the cell before. *)
Lemma integrate_loop_step (zipped : list (float * float)) (acc : list float)
    (k : nat) (dz : float * float) :
  acc <> [] -> k < List.length zipped ->
  nth (List.length acc + k) (integrate_loop h zipped acc) 0%float
  = (h * (fst (nth k zipped dz) + snd (nth k zipped dz)) / 2
     + nth (List.length acc + k - 1) (integrate_loop h zipped acc) 0)%float.
Proof.
  revert acc k. induction zipped as [| z zs IH]; intros acc k Hacc Hk;
    cbn [List.length] in Hk; [lia |].
  assert (Hlen : 0 < List.length acc) by (destruct acc; [congruence | cbn; lia]).
  cbn [integrate_loop].
  set (v := (h * (fst z + snd z) / 2 + last acc 0)%float).
  assert (Hlen' : List.length (acc ++ [v]) = S (List.length acc))
    by (rewrite length_app; cbn [List.length]; lia).
  destruct k as [| k].
  - rewrite Nat.add_0_r.
    rewrite !integrate_loop_prefix by lia.
    rewrite app_nth2 by lia. rewrite Nat.sub_diag. cbn [nth].
    rewrite app_nth1 by lia. unfold v. now rewrite last_is_nth.
  - replace (List.length acc + S k) with (List.length (acc ++ [v]) + k) by lia.
    cbn [nth]. apply IH; [now destruct acc | lia].
Qed.

End IntegrateLoop.

(** C1 (as amended). For every input series [x] and every step [h] (the
    class uses [dt = 1/100]): the first output cell is 0; for [1 <= i < n]
    the output satisfies [y[i] = y[i-1] + h * (x[i-1] + x[i]) / 2]; the
    output has as many cells as the input when the input is not empty, and
    the single cell 0 when the input is empty. The output is a function of
    [h] and [x] alone. *)
Theorem integrateSeries_trapezoid (x : list float) :
  dt = (1 / 100)%float /\
  forall h : float,
    nth 0 (integrateSeries h x) 0%float = 0%float /\
    List.length (integrateSeries h x) = Nat.max 1 (List.length x) /\
    (forall i : nat, 1 <= i < List.length x ->
       nth i (integrateSeries h x) 0%float
       = (nth (i - 1) (integrateSeries h x) 0
          + h * (nth (i - 1) x 0 + nth i x 0) / 2)%float).
Proof.
  split; [vm_compute; reflexivity |].
  intros h. unfold integrateSeries. repeat split.
  - now rewrite integrate_loop_prefix by (cbn; lia).
  - rewrite integrate_loop_length, length_combine, length_tl. cbn [List.length]. lia.
  - intros i Hi.
    pose proof (integrate_loop_step h (combine x (tl x)) [0%float] (i - 1) (0%float, 0%float))
      as Hstep.
    cbn [List.length] in Hstep.
    replace (1 + (i - 1)) with i in Hstep by lia.
    replace (i - 1) with (1 + (i - 1) - 1) at 1 by lia.
    replace (1 + (i - 1) - 1) with (i - 1) in * by lia.
    rewrite Hstep.
    + rewrite nth_combine by (rewrite ?length_tl; lia).
      cbn [fst snd]. rewrite nth_tl.
      replace (S (i - 1)) with i by lia. apply float_add_comm.
    + discriminate.
    + rewrite length_combine, length_tl. lia.
Qed.

(** C1, as stated, fails on the empty series: the output has one cell. *)
Lemma integrateSeries_empty_length :
  integrateSeries dt [] = [0%float] /\
  List.length (integrateSeries dt []) <> List.length (@nil float).
Proof. split; [reflexivity | cbn; discriminate]. Qed.

(** Two samples, one trapezoid: [0.01 * (1 + 3) / 2]. *)
Example integrateSeries_two_cells :
  integrateSeries dt [1%float; 3%float] = [0%float; 0.02%float].
Proof. vm_compute. reflexivity. Qed.

(* ===================================================================== *)
(** * Truncation *)
(* ===================================================================== *)

(** Selecting the labels [before .. after] of a column whose first cell has
    label [i] drops the cells below [before] and keeps what follows up to
    [after]. *)
Lemma truncate_from_firstn_skipn {A : Type} (col : list A) (i before after : Z) :
  truncate_from i before after col
  = firstn (Z.to_nat (after + 1 - Z.max i before))
      (skipn (Z.to_nat (before - i)) col).
Proof.
  revert i. induction col as [| x col IH]; intros i.
  - cbn [truncate_from]. now rewrite skipn_nil, firstn_nil.
  - cbn [truncate_from]. rewrite IH.
    destruct (before <=? i)%Z eqn:Hb; [destruct (i <=? after)%Z eqn:Ha |]; cbn [andb].
    + apply Z.leb_le in Hb, Ha.
      replace (Z.to_nat (before - i)) with 0 by lia.
      replace (Z.to_nat (before - (i + 1))) with 0 by lia.
      cbn [skipn].
      replace (Z.to_nat (after + 1 - Z.max i before))
        with (S (Z.to_nat (after + 1 - Z.max (i + 1) before))) by lia.
      reflexivity.
    + apply Z.leb_le in Hb. apply Z.leb_gt in Ha.
      replace (Z.to_nat (after + 1 - Z.max (i + 1) before)) with 0 by lia.
      replace (Z.to_nat (after + 1 - Z.max i before)) with 0 by lia.
      reflexivity.
    + apply Z.leb_gt in Hb.
      replace (Z.to_nat (before - i)) with (S (Z.to_nat (before - (i + 1)))) by lia.
      cbn [skipn].
      replace (Z.max (i + 1) before) with (Z.max i before) by lia.
      reflexivity.
Qed.

Lemma window_values :
  ignoredSamples = 6000%Z /\ endIndex = 40500%Z /\
  Z.of_nat droppedHead = 6000%Z /\ Z.of_nat keptLength = 34501%Z.
Proof. repeat split. Qed.

Lemma truncate_window {A : Type} (col : list A) :
  truncate ignoredSamples endIndex col = firstn keptLength (skipn droppedHead col).
Proof.
  unfold truncate. rewrite truncate_from_firstn_skipn.
  unfold keptLength, droppedHead.
  replace (Z.max 0 ignoredSamples) with ignoredSamples by reflexivity.
  now rewrite Z.sub_0_r.
Qed.

Lemma nth_error_firstn_skipn {A : Type} (col : list A) (n m j : nat) :
  nth_error (firstn n (skipn m col)) j
  = if (j <? n)%nat then nth_error col (m + j) else None.
Proof.
  destruct (j <? n)%nat eqn:Hj.
  - apply Nat.ltb_lt in Hj. rewrite nth_error_firstn.
    apply Nat.ltb_lt in Hj. rewrite Hj. apply nth_error_skipn.
  - apply Nat.ltb_ge in Hj. apply nth_error_None. rewrite length_firstn. lia.
Qed.

Lemma lookup_removeExtraneousSamples (df : DataFrame) (name : string) :
  lookup (removeExtraneousSamples df) name
  = option_map (truncate ignoredSamples endIndex) (lookup df name).
Proof.
  induction df as [| [k c] df IH]; [reflexivity |].
  cbn [removeExtraneousSamples map lookup fst snd].
  destruct (String.eqb k name); [reflexivity | exact IH].
Qed.

Lemma nrows_removeExtraneousSamples (df : DataFrame) :
  nrows (removeExtraneousSamples df) = Nat.min keptLength (nrows df - droppedHead).
Proof.
  destruct df as [| [k c] df]; [reflexivity |].
  cbn [removeExtraneousSamples map nrows fst snd].
  now rewrite truncate_window, length_firstn, length_skipn.
Qed.

(** C2 (as amended). [removeExtraneousSamples] keeps, in every column and in
    order, exactly the cells whose index lies in [6000 .. 40500], reindexed
    from 0: cell [j] of the result is cell [6000 + j] of the column for
    [j < 34501], and there is no other cell. The number of rows is therefore
    [min 34501 (n - 6000)] for a frame of [n] rows (0 when [n <= 6000]): it
    is 34501 exactly when the frame has more than 40500 rows. The names and
    the order of the columns do not change. *)
Theorem removeExtraneousSamples_window (df : DataFrame) :
  (ignoredSamples = 6000 /\ endIndex = 40500)%Z /\
  column_names (removeExtraneousSamples df) = column_names df /\
  (forall (name : string) (col : Series),
     lookup df name = Some col ->
     exists col',
       lookup (removeExtraneousSamples df) name = Some col' /\
       (forall j : nat,
          nth_error col' j
          = if (Z.of_nat j <? 34501)%Z then nth_error col (Z.to_nat 6000 + j) else None) /\
       Z.of_nat (List.length col')
       = Z.min 34501 (Z.max 0 (Z.of_nat (List.length col) - 6000))) /\
  Z.of_nat (nrows (removeExtraneousSamples df))
  = Z.min 34501 (Z.max 0 (Z.of_nat (nrows df) - 6000)) /\
  ((40500 < Z.of_nat (nrows df))%Z <->
   Z.of_nat (nrows (removeExtraneousSamples df)) = 34501%Z).
Proof.
  destruct window_values as [_ [_ [Hd Hk]]].
  assert (Hrows : Z.of_nat (nrows (removeExtraneousSamples df))
                  = Z.min 34501 (Z.max 0 (Z.of_nat (nrows df) - 6000))).
  { rewrite nrows_removeExtraneousSamples. lia. }
  split; [split; reflexivity | split; [| split; [| split]]].
  - unfold column_names, removeExtraneousSamples. rewrite map_map.
    apply map_ext. now intros [k c].
  - intros name col Hcol.
    exists (truncate ignoredSamples endIndex col).
    rewrite lookup_removeExtraneousSamples, Hcol. split; [reflexivity |].
    rewrite truncate_window. split.
    + intros j. rewrite nth_error_firstn_skipn.
      change (Z.to_nat 6000) with droppedHead.
      destruct (j <? keptLength)%nat eqn:Hj, (Z.of_nat j <? 34501)%Z eqn:Hj';
        try reflexivity; exfalso.
      * apply Nat.ltb_lt in Hj. apply Z.ltb_ge in Hj'. lia.
      * apply Nat.ltb_ge in Hj. apply Z.ltb_lt in Hj'. lia.
    + rewrite length_firstn, length_skipn. lia.
  - exact Hrows.
  - rewrite Hrows. lia.
Qed.

(** C2, as stated, fails on a frame with fewer than 40501 rows: the
    truncated frame has fewer than 34501 rows (here none). *)
Lemma removeExtraneousSamples_short_frame :
  nrows (removeExtraneousSamples [("g", [PyFloat 0; PyFloat 1; PyFloat 2])]) = 0 /\
  Z.of_nat (nrows (removeExtraneousSamples [("g", [PyFloat 0; PyFloat 1; PyFloat 2])]))
  <> 34501%Z.
Proof. split; [reflexivity | discriminate]. Qed.

(* ===================================================================== *)
(** * File ordering *)
(* ===================================================================== *)

Lemma insert_sorted_perm (x : string) (l : list string) :
  Permutation (x :: l) (Py.insert_sorted x l).
Proof.
  induction l as [| y l IH]; cbn [Py.insert_sorted]; [apply Permutation_refl |].
  destruct (String.leb x y); [apply Permutation_refl |].
  apply perm_trans with (y :: x :: l); [apply perm_swap | now apply perm_skip].
Qed.

Lemma sorted_perm (l : list string) : Permutation l (Py.sorted l).
Proof.
  unfold Py.sorted. induction l as [| x l IH]; cbn [fold_right]; [constructor |].
  apply perm_trans with (x :: fold_right Py.insert_sorted [] l).
  - now apply perm_skip.
  - apply insert_sorted_perm.
Qed.

(** The loop of [sortFilesBySensorCode] concatenates the sorted groups. *)
Lemma fold_left_groups (group : string -> list string) (codes : list string)
    (acc : list string) :
  fold_left (fun sortedList code => sortedList ++ group code) codes acc
  = acc ++ List.concat (map group codes).
Proof.
  revert acc. induction codes as [| c codes IH]; intros acc; cbn [fold_left map List.concat].
  - now rewrite app_nil_r.
  - now rewrite IH, app_assoc.
Qed.

Lemma sortFilesBySensorCode_groups (l : list string) :
  sortFilesBySensorCode l
  = List.concat (map (fun code => Py.sorted (filter (Py.str_in code) l)) SENSOR_CODES).
Proof. unfold sortFilesBySensorCode. now rewrite fold_left_groups. Qed.

Lemma concat_map_perm (g1 g2 : string -> list string) (codes : list string) :
  (forall c, Permutation (g1 c) (g2 c)) ->
  Permutation (List.concat (map g1 codes)) (List.concat (map g2 codes)).
Proof.
  intros H. induction codes as [| c codes IH]; cbn [map List.concat]; [constructor |].
  now apply Permutation_app.
Qed.

(** Putting [a] in front of the groups selected by [q] adds one copy of [a]
    per selected group. *)
Lemma concat_groups_cons (q : string -> bool) (a : string)
    (g : string -> list string) (codes : list string) :
  Permutation
    (List.concat (map (fun c => if q c then a :: g c else g c) codes))
    (repeat a (List.length (filter q codes)) ++ List.concat (map g codes)).
Proof.
  induction codes as [| c codes IH]; cbn [map List.concat filter]; [constructor |].
  destruct (q c); cbn [List.length repeat app].
  - apply perm_skip.
    apply perm_trans with (g c ++ repeat a (List.length (filter q codes))
                               ++ List.concat (map g codes)).
    + now apply Permutation_app_head.
    + rewrite !app_assoc. apply Permutation_app_tail, Permutation_app_comm.
  - apply perm_trans with (g c ++ repeat a (List.length (filter q codes))
                               ++ List.concat (map g codes)).
    + now apply Permutation_app_head.
    + rewrite !app_assoc. apply Permutation_app_tail, Permutation_app_comm.
Qed.

(** What [sortFilesBySensorCode] returns, as a multiset: every file once per
    sensor code that occurs in its name. *)
Lemma sortFilesBySensorCode_multiset (l : list string) :
  Permutation (sortFilesBySensorCode l)
    (flat_map (fun f => repeat f (List.length (codes_in f))) l).
Proof.
  rewrite sortFilesBySensorCode_groups.
  apply perm_trans with (List.concat (map (fun code => filter (Py.str_in code) l) SENSOR_CODES)).
  { apply concat_map_perm. intros c. apply Permutation_sym, sorted_perm. }
  induction l as [| a l IH]; cbn [flat_map].
  - cbn [filter]. induction SENSOR_CODES; [constructor | exact IHl].
  - cbn [filter].
    apply perm_trans
      with (repeat a (List.length (codes_in a))
            ++ List.concat (map (fun code => filter (Py.str_in code) l) SENSOR_CODES)).
    + apply (concat_groups_cons (fun c => Py.str_in c a) a
               (fun code => filter (Py.str_in code) l)).
    + now apply Permutation_app_head.
Qed.

Lemma sortFilesBySensorCode_perm (l : list string) :
  (forall f, In f l -> List.length (codes_in f) = 1) ->
  Permutation l (sortFilesBySensorCode l).
Proof.
  intros H. apply Permutation_sym.
  apply perm_trans with (flat_map (fun f => repeat f (List.length (codes_in f))) l);
    [apply sortFilesBySensorCode_multiset |].
  induction l as [| a l IH]; cbn [flat_map]; [constructor |].
  rewrite (H a (or_introl eq_refl)). cbn [repeat app].
  apply perm_skip, IH. intros f Hf. apply H. now right.
Qed.

Lemma filter_split_perm (q : string -> bool) (l : list string) :
  Permutation l (filter q l ++ filter (fun f => negb (q f)) l).
Proof.
  induction l as [| a l IH]; cbn [filter]; [constructor |].
  destruct (q a); cbn [negb app].
  - now apply perm_skip.
  - now apply Permutation_cons_app.
Qed.

(** C7 (as amended). When every file name of the input contains exactly one
    of the eight sensor codes and the input has one or two distinct time
    tuples, [sortFiles] returns a list, whatever the order in which the set
    of tuples is enumerated, and that list is a permutation of the input:
    every input file appears in it exactly once. *)
Theorem sortFiles_permutation (inputFileList : list string)
    (uniqueTimeTuples : list (string * string)) :
  enumerates uniqueTimeTuples inputFileList ->
  List.length uniqueTimeTuples = 1 \/ List.length uniqueTimeTuples = 2 ->
  (forall f, In f inputFileList -> List.length (codes_in f) = 1) ->
  exists out,
    sortFilesFrom uniqueTimeTuples inputFileList = Some out /\
    Permutation inputFileList out.
Proof.
  intros _ Hn Hcodes. unfold sortFilesFrom.
  destruct Hn as [Hn | Hn]; rewrite Hn; cbn [Nat.eqb].
  - eexists. split; [reflexivity |]. now apply sortFilesBySensorCode_perm.
  - eexists. split; [reflexivity |].
    set (firstTime :=
           if String.ltb (fst (nth 0 uniqueTimeTuples (EmptyString, EmptyString)))
                         (fst (nth 1 uniqueTimeTuples (EmptyString, EmptyString)))
           then snd (nth 0 uniqueTimeTuples (EmptyString, EmptyString))
           else snd (nth 1 uniqueTimeTuples (EmptyString, EmptyString))).
    apply perm_trans with
      (filter (Py.str_in firstTime) inputFileList
       ++ filter (fun f => negb (Py.str_in firstTime f)) inputFileList).
    + apply filter_split_perm.
    + apply Permutation_app; apply sortFilesBySensorCode_perm;
        intros f Hf; apply filter_In in Hf; now apply Hcodes.
Qed.

Lemma two_hour_files_codes (f : string) :
  In f two_hour_files -> List.length (codes_in f) = 1.
Proof.
  intros H. repeat (destruct H as [H | H]; [subst f; reflexivity |]). destruct H.
Defined.

Lemma sortFiles_permutation_witness :
  exists out,
    sortFiles two_hour_files = Some out /\ Permutation two_hour_files out.
Proof.
  apply (sortFiles_permutation two_hour_files
           (nodup timeTuple_eq_dec (map getTimeText two_hour_files))).
  - apply Permutation_refl.
  - right. reflexivity.
  - exact two_hour_files_codes.
Defined.

Example sortFiles_two_hour_files :
  sortFiles two_hour_files
  = Some ["20190926100000.ALZ.003.S39z.txt"; "20190926100000.ALZ.001.B4Fx.txt";
          "20190926110000.ALZ.003.S39z.txt"; "20190926110000.ALZ.004.FFN.txt"].
Proof. reflexivity. Qed.

(** C7, as stated, fails: a file whose name contains none of the sensor
    codes is left out of the output, and a file whose path contains two of
    them is listed twice. *)
Lemma sortFiles_not_permutation :
  sortFiles ["20190926100000.ALZ.001.X01x.txt"] = Some [] /\
  ~ Permutation ["20190926100000.ALZ.001.X01x.txt"] [] /\
  sortFiles ["/data/FF/20190926100000.ALZ.001.N39x.txt"]
  = Some ["/data/FF/20190926100000.ALZ.001.N39x.txt";
          "/data/FF/20190926100000.ALZ.001.N39x.txt"] /\
  ~ Permutation ["/data/FF/20190926100000.ALZ.001.N39x.txt"]
      ["/data/FF/20190926100000.ALZ.001.N39x.txt";
       "/data/FF/20190926100000.ALZ.001.N39x.txt"].
Proof.
  repeat split; try reflexivity; intros H; apply Permutation_length in H; discriminate.
Qed.

(* ===================================================================== *)
(** * The order of binary64 numbers *)
(* ===================================================================== *)

(** Comparisons of floats are specified on [spec_float]; the facts below
    are proved there by cases on the two or three numbers and lifted. *)
Ltac sf_cases :=
  repeat match goal with
  | s : bool |- _ => destruct s
  end;
  cbn [SFcompare SFleb SFltb SFeqb SFabs CompOpp] in *;
  repeat match goal with
  | H : context [Pos.compare_cont Eq ?a ?b] |- _ =>
      change (Pos.compare_cont Eq a b) with (Pos.compare a b) in *
  | |- context [Pos.compare_cont Eq ?a ?b] =>
      change (Pos.compare_cont Eq a b) with (Pos.compare a b) in *
  end;
  repeat match goal with
  | H : context [(?a ?= ?b)%Z] |- _ => destruct (Z.compare_spec a b)
  | |- context [(?a ?= ?b)%Z] => destruct (Z.compare_spec a b)
  | H : context [(?a ?= ?b)%positive] |- _ => destruct (Pos.compare_spec a b)
  | |- context [(?a ?= ?b)%positive] => destruct (Pos.compare_spec a b)
  end;
  cbn [CompOpp] in *; try reflexivity; try discriminate; try congruence; try lia.

Lemma SFleb_trans (x y z : spec_float) :
  SFleb x y = true -> SFleb y z = true -> SFleb x z = true.
Proof. unfold SFleb. destruct x, y, z; intros H1 H2; sf_cases. Qed.

Lemma SFltb_false_leb (x y : spec_float) :
  x <> S754_nan -> y <> S754_nan -> SFltb x y = false -> SFleb y x = true.
Proof. unfold SFltb, SFleb. destruct x, y; intros H1 H2 H; sf_cases. Qed.

Lemma SFltb_leb (x y : spec_float) : SFltb x y = true -> SFleb x y = true.
Proof. unfold SFltb, SFleb. destruct x, y; intros H; sf_cases. Qed.


Lemma SFeqb_ltb (x y : spec_float) : SFeqb x y = true -> SFltb y x = false.
Proof. unfold SFeqb, SFltb. destruct x, y; intros H; sf_cases. Qed.

Lemma SFeqb_refl (x : spec_float) : x <> S754_nan -> SFeqb x x = true.
Proof. unfold SFeqb. destruct x; intros H; sf_cases. Qed.


Lemma is_nan_false (x : float) : is_nan x = false <-> Prim2SF x <> S754_nan.
Proof.
  unfold is_nan. rewrite eqb_spec. split.
  - intros H E. rewrite E in H. discriminate.
  - intros H. now rewrite SFeqb_refl.
Qed.

Lemma float_eqb_refl (x : float) : is_nan x = false -> (x =? x)%float = true.
Proof. unfold is_nan. now destruct (x =? x)%float. Qed.

Lemma float_leb_trans (x y z : float) :
  (x <=? y)%float = true -> (y <=? z)%float = true -> (x <=? z)%float = true.
Proof. rewrite !leb_spec. apply SFleb_trans. Qed.

Lemma float_ltb_false_leb (x y : float) :
  is_nan x = false -> is_nan y = false ->
  (x <? y)%float = false -> (y <=? x)%float = true.
Proof. rewrite !is_nan_false, ltb_spec, leb_spec. apply SFltb_false_leb. Qed.

Lemma float_ltb_leb (x y : float) : (x <? y)%float = true -> (x <=? y)%float = true.
Proof. rewrite ltb_spec, leb_spec. apply SFltb_leb. Qed.


Lemma float_eqb_ltb (x y : float) : (x =? y)%float = true -> (y <? x)%float = false.
Proof. rewrite ltb_spec, eqb_spec. apply SFeqb_ltb. Qed.

Lemma float_leb_refl (x : float) : is_nan x = false -> (x <=? x)%float = true.
Proof.
  intros H. apply float_ltb_false_leb; try assumption.
  apply float_eqb_ltb. now apply float_eqb_refl.
Qed.



(* ===================================================================== *)
(** * Peak statistics *)
(* ===================================================================== *)

Lemma In_numbers (col : list float) (v : float) :
  In v (numbers col) <-> In v col /\ is_nan v = false.
Proof.
  unfold numbers. rewrite filter_In. now destruct (is_nan v).
Qed.

Lemma fold_min_spec (xs : list float) (x : float) :
  is_nan x = false -> (forall v, In v xs -> is_nan v = false) ->
  In (fold_left (fun m y => if (y <? m)%float then y else m) xs x) (x :: xs) /\
  forall v, In v (x :: xs) ->
    (fold_left (fun m y => if (y <? m)%float then y else m) xs x <=? v)%float = true.
Proof.
  revert x. induction xs as [| y xs IH]; intros x Hx Hxs; cbn [fold_left].
  - split; [now left |]. intros v [<- | []]. now apply float_leb_refl.
  - assert (Hy : is_nan y = false) by (apply Hxs; now left).
    assert (Hm : is_nan (if (y <? x)%float then y else x) = false)
      by (destruct (y <? x)%float; assumption).
    destruct (IH _ Hm (fun v Hv => Hxs v (or_intror Hv))) as [Hin Hle].
    split.
    + destruct Hin as [Hin | Hin]; [| right; now right].
      rewrite <- Hin. destruct (y <? x)%float; [right; now left | now left].
    + intros v [<- | [<- | Hv]].
      * apply float_leb_trans with (if (y <? x)%float then y else x);
          [apply Hle; now left |].
        destruct (y <? x)%float eqn:E;
          [now apply float_ltb_leb | now apply float_leb_refl].
      * apply float_leb_trans with (if (y <? x)%float then y else x);
          [apply Hle; now left |].
        destruct (y <? x)%float eqn:E;
          [now apply float_leb_refl | now apply float_ltb_false_leb].
      * apply Hle. now right.
Qed.

Lemma fold_max_spec (xs : list float) (x : float) :
  is_nan x = false -> (forall v, In v xs -> is_nan v = false) ->
  In (fold_left (fun m y => if (m <? y)%float then y else m) xs x) (x :: xs) /\
  forall v, In v (x :: xs) ->
    (v <=? fold_left (fun m y => if (m <? y)%float then y else m) xs x)%float = true.
Proof.
  revert x. induction xs as [| y xs IH]; intros x Hx Hxs; cbn [fold_left].
  - split; [now left |]. intros v [<- | []]. now apply float_leb_refl.
  - assert (Hy : is_nan y = false) by (apply Hxs; now left).
    assert (Hm : is_nan (if (x <? y)%float then y else x) = false)
      by (destruct (x <? y)%float; assumption).
    destruct (IH _ Hm (fun v Hv => Hxs v (or_intror Hv))) as [Hin Hle].
    split.
    + destruct Hin as [Hin | Hin]; [| right; now right].
      rewrite <- Hin. destruct (x <? y)%float; [right; now left | now left].
    + intros v [<- | [<- | Hv]].
      * apply float_leb_trans with (if (x <? y)%float then y else x);
          [| apply Hle; now left].
        destruct (x <? y)%float eqn:E;
          [now apply float_ltb_leb | now apply float_leb_refl].
      * apply float_leb_trans with (if (x <? y)%float then y else x);
          [| apply Hle; now left].
        destruct (x <? y)%float eqn:E;
          [now apply float_leb_refl | now apply float_ltb_false_leb].
      * apply Hle. now right.
Qed.

(** [Series.min()] is a number of the column, below every number of it. *)
Lemma series_min_spec (col : list float) :
  (exists v, In v col /\ is_nan v = false) ->
  In (series_min col) col /\ is_nan (series_min col) = false /\
  forall v, In v col -> is_nan v = false -> (series_min col <=? v)%float = true.
Proof.
  intros [w Hw]. apply In_numbers in Hw.
  unfold series_min. fold (numbers col).
  destruct (numbers col) as [| x xs] eqn:E; [destruct Hw |].
  assert (Hall : forall v, In v (x :: xs) -> In v col /\ is_nan v = false)
    by (intros v Hv; apply In_numbers; now rewrite E).
  destruct (fold_min_spec xs x) as [Hin Hle].
  - apply Hall. now left.
  - intros v Hv. apply Hall. now right.
  - split; [apply Hall, Hin | split; [apply Hall, Hin |]].
    intros v Hv Hnan. apply Hle. rewrite <- E. now apply In_numbers.
Qed.

Lemma series_max_spec (col : list float) :
  (exists v, In v col /\ is_nan v = false) ->
  In (series_max col) col /\ is_nan (series_max col) = false /\
  forall v, In v col -> is_nan v = false -> (v <=? series_max col)%float = true.
Proof.
  intros [w Hw]. apply In_numbers in Hw.
  unfold series_max. fold (numbers col).
  destruct (numbers col) as [| x xs] eqn:E; [destruct Hw |].
  assert (Hall : forall v, In v (x :: xs) -> In v col /\ is_nan v = false)
    by (intros v Hv; apply In_numbers; now rewrite E).
  destruct (fold_max_spec xs x) as [Hin Hle].
  - apply Hall. now left.
  - intros v Hv. apply Hall. now right.
  - split; [apply Hall, Hin | split; [apply Hall, Hin |]].
    intros v Hv Hnan. apply Hle. rewrite <- E. now apply In_numbers.
Qed.

Lemma first_index_exists {A : Type} (p : A -> bool) (l : list A) (x : A) :
  In x l -> p x = true -> exists i, first_index p l = Some i.
Proof.
  induction l as [| a l IH]; intros Hin Hp; [destruct Hin |].
  cbn [first_index]. destruct (p a) eqn:Ha; [now exists 0 |].
  destruct Hin as [-> | Hin]; [congruence |].
  destruct (IH Hin Hp) as [i Hi]. exists (S i). now rewrite Hi.
Qed.


Section PeakInfo.

Variable round : float -> Z -> float.

(** On a column with at least one number, [peakInfo] returns: both index
    searches succeed, and the pair of the minimum is chosen only when its
    absolute value is strictly the larger one. *)
Lemma peakInfo_returns (col : list float) :
  (exists v, In v col /\ is_nan v = false) ->
  exists minValIndex maxValIndex,
    first_index (fun x => (x =? series_min col)%float) col = Some minValIndex /\
    first_index (fun x => (x =? series_max col)%float) col = Some maxValIndex /\
    peakInfo round col
    = Ok (if (abs (series_max col) <? abs (series_min col))%float
          then mkPeakStat minValIndex (series_min col) (round (series_min col) 4)
          else mkPeakStat maxValIndex (series_max col) (round (series_max col) 4)).
Proof.
  intros H.
  destruct (series_min_spec col H) as [Hmin [Hmin_nan _]].
  destruct (series_max_spec col H) as [Hmax [Hmax_nan _]].
  destruct (first_index_exists (fun x => (x =? series_min col)%float) col _ Hmin
              (float_eqb_refl _ Hmin_nan)) as [imin Himin].
  destruct (first_index_exists (fun x => (x =? series_max col)%float) col _ Hmax
              (float_eqb_refl _ Hmax_nan)) as [imax Himax].
  exists imin, imax. split; [exact Himin | split; [exact Himax |]].
  unfold peakInfo. rewrite Himin, Himax. cbn [fst snd].
  now destruct (abs (series_max col) <? abs (series_min col))%float.
Qed.

End PeakInfo.



Lemma getStats_peakInfo (round : float -> Z -> float) (df : DataFrame)
    (columnName : string) (col : list float) :
  floats_of df columnName = Ok col ->
  getStats round df columnName = peakInfo round col.
Proof. intros H. unfold getStats. now rewrite H. Qed.



Example peakInfo_tie :
  getStats round_id tie_frame "offset_g" = Ok (mkPeakStat 3 3 3).
Proof. vm_compute. reflexivity. Qed.

Example peakInfo_repeated_peak :
  getStats round_id repeated_peak_frame "offset_g" = Ok (mkPeakStat 1 (-5) (-5)).
Proof. vm_compute. reflexivity. Qed.

(** A column without any number: the index search finds nothing. *)
Example peakInfo_no_number :
  peakInfo round_id [nan] = Raise IndexError /\ peakInfo round_id [] = Raise IndexError.
Proof. split; vm_compute; reflexivity. Qed.



(* ===================================================================== *)
(** * The columns of the frame *)
(* ===================================================================== *)



Lemma map_fst_combine {A B : Type} (l1 : list A) (l2 : list B) :
  List.length l2 = List.length l1 -> map fst (combine l1 l2) = l1.
Proof.
  revert l2. induction l1 as [| a l1 IH]; intros [| b l2] H; cbn [List.length] in H;
    try discriminate; [reflexivity |].
  cbn [combine map fst]. f_equal. apply IH. lia.
Qed.












Section FrameStages.

Variable detrend : list float -> list float.
Variable butter : Z -> list float -> string -> list float * list float.
Variable lfilter : list float -> list float -> list float -> list float.








End FrameStages.

(* ===================================================================== *)
(** * The constructor returns a frame *)
(* ===================================================================== *)

Lemma mapM_to_float_PyFloat (l : list float) : mapM to_float (map PyFloat l) = Ok l.
Proof. induction l as [| a l IH]; cbn [map mapM to_float bind]; [| rewrite IH]; reflexivity. Qed.












Section Returns.

Variable detrend : list float -> list float.
Variable butter : Z -> list float -> string -> list float * list float.
Variable lfilter : list float -> list float -> list float -> list float.

(** [detrend] and [lfilter] return as many samples as they are given. *)
Hypothesis detrend_length : forall x, List.length (detrend x) = List.length x.
Hypothesis lfilter_length : forall b a x, List.length (lfilter b a x) = List.length x.





End Returns.



(** The constructor run on a frame of 5002 rows, with identity stand-ins
    for the library filters: thirteen columns and two rows are left. *)
Example Conversion_frame_long_raw_frame :
  match Conversion_frame detrend_id butter_none lfilter_id 1.25 long_raw_frame with
  | Ok df => column_names df = final_columns /\ nrows df = 2
  | Raise _ => False
  end.
Proof. vm_compute. split; reflexivity. Qed.

(* ===================================================================== *)
(** * File names: sensor code, axis, floor and time *)
(* ===================================================================== *)

(** The assertions of [test_getSensorCodeInfo], [test_getFloor] and
    [test_getAxis]. *)
Example getSensorCodeInfo_tests :
  getSensorCodeInfo
    "/home/grm/acc-data-conversion/working/2019-09-26T135930/20190926110000.ALZ.003.S39z.txt"
  = Ok ("S39", "S39z") /\
  getSensorCodeInfo "ALZ.003.S39z.txt" = Ok ("S39", "S39z") /\
  getSensorCodeInfo
    "/home/grm/AllianzSHMS/working/test-mseed-files_20190926/20190926100000.ALZ.001.B4Fx.m"
  = Ok ("B4F", "B4Fx") /\
  getSensorCodeInfo "ALZ.001.B4Fx.m" = Ok ("B4F", "B4Fx").
Proof. repeat split; reflexivity. Qed.

Example getFloor_getAxis_tests :
  getFloor "B4Fx" = "4" /\ getFloor "N39x" = "39" /\
  getAxis "B4Fx" = Ok "X" /\ getAxis "S24z" = Ok "Z" /\ getAxis "N12y" = Ok "Y".
Proof. repeat split; reflexivity. Qed.

Lemma prefix_refl (s : string) : prefix s s = true.
Proof.
  induction s as [| c s IH]; [reflexivity |].
  cbn [prefix]. destruct (ascii_dec c c); [exact IH | congruence].
Qed.

Lemma prefix_nil (s : string) : prefix EmptyString s = true.
Proof. now destruct s. Qed.

(** A prefix of [t ++ u] lies within [t] or runs over its end. *)
Lemma prefix_app_inv (s t u : string) :
  prefix s (t ++ u)%string = true ->
  prefix s t = true \/ exists s2, s = (t ++ s2)%string /\ prefix s2 u = true.
Proof.
  revert s. induction t as [| c t IH]; intros s H.
  - right. exists s. now split.
  - destruct s as [| d s]; [left; reflexivity |].
    cbn [append prefix] in H |- *.
    destruct (ascii_dec d c) as [-> | Hne]; [| discriminate].
    destruct (IH s H) as [Hp | [s2 [-> Hs2]]]; [now left |].
    right. exists s2. now split.
Qed.

(** [c in s] for a single character. *)
Lemma char_in_cons (c d : ascii) (s : string) :
  Py.str_in (String c EmptyString) (String d s)
  = Ascii.eqb d c || Py.str_in (String c EmptyString) s.
Proof.
  cbn [Py.str_in prefix]. destruct (ascii_dec c d) as [-> | Hne].
  - now rewrite prefix_nil, Ascii.eqb_refl.
  - assert (E : Ascii.eqb d c = false) by (apply Ascii.eqb_neq; congruence).
    now rewrite E.
Qed.


Lemma char_in_app (c : ascii) (a b : string) :
  Py.str_in (String c EmptyString) (a ++ b)%string
  = Py.str_in (String c EmptyString) a || Py.str_in (String c EmptyString) b.
Proof.
  induction a as [| d a IH]; [reflexivity |].
  change (String d a ++ b)%string with (String d (a ++ b)%string).
  rewrite !char_in_cons, IH. now rewrite orb_assoc.
Qed.

Lemma split_not_nil (sep : ascii) (s : string) : Py.split sep s <> [].
Proof.
  induction s as [| c s IH]; cbn [Py.split]; [discriminate |].
  destruct (Ascii.eqb c sep); [discriminate |].
  destruct (Py.split sep s); discriminate.
Qed.

(** A string without the separator is its own single piece. *)
Lemma split_no_sep (sep : ascii) (s : string) :
  Py.str_in (String sep EmptyString) s = false -> Py.split sep s = [s].
Proof.
  induction s as [| c s IH]; intros H; [reflexivity |].
  rewrite char_in_cons in H. apply orb_false_iff in H. destruct H as [Hc Hs].
  cbn [Py.split]. rewrite Hc, (IH Hs). reflexivity.
Qed.

(** The pieces of [a + sep + b] are the pieces of [a], then those of [b]. *)
Lemma split_app (sep : ascii) (a b : string) :
  Py.split sep (a ++ String sep b)%string = Py.split sep a ++ Py.split sep b.
Proof.
  induction a as [| c a IH].
  - cbn [append Py.split]. now rewrite Ascii.eqb_refl.
  - change (String c a ++ String sep b)%string with (String c (a ++ String sep b)%string).
    cbn [Py.split]. rewrite IH.
    destruct (Ascii.eqb c sep); [reflexivity |].
    pose proof (split_not_nil sep a) as Hne.
    destruct (Py.split sep a) as [| w ws]; [congruence | reflexivity].
Qed.

Lemma last_app_nonempty {A : Type} (l1 l2 : list A) (d : A) :
  l2 <> [] -> last (l1 ++ l2) d = last l2 d.
Proof.
  intros H. induction l1 as [| a l1 IH]; [reflexivity |].
  cbn [app]. destruct (l1 ++ l2) eqn:E.
  - apply app_eq_nil in E. destruct E as [_ E]. congruence.
  - exact IH.
Qed.

(** The last piece of [a + sep + b] is [b] when [b] has no separator, and
    the first piece of [a + sep + b] is [a] when [a] has none. *)
Lemma split_last_piece (sep : ascii) (a b : string) :
  Py.str_in (String sep EmptyString) b = false ->
  last (Py.split sep (a ++ String sep b)%string) EmptyString = b.
Proof.
  intros H. rewrite split_app, last_app_nonempty by apply split_not_nil.
  now rewrite (split_no_sep sep b H).
Qed.

Lemma split_first_piece (sep : ascii) (a b : string) :
  Py.str_in (String sep EmptyString) a = false ->
  hd EmptyString (Py.split sep (a ++ String sep b)%string) = a.
Proof.
  intros H. rewrite split_app, (split_no_sep sep a H). reflexivity.
Qed.

(** X1: [getTimeText] of [dir/ts.rest]. The directory part plays no role:
    when the time token [ts] contains neither ['/'] nor ['.'] and the rest
    of the file name contains no ['/'], the result is [(ts[8:10], ts)],
    with or without a directory in front, and also when nothing follows
    the token. *)
Theorem getTimeText_of_path (dir ts rest : string) :
  Py.str_in "/" ts = false -> Py.str_in "." ts = false ->
  Py.str_in "/" rest = false ->
  getTimeText (dir ++ "/" ++ ts ++ "." ++ rest)%string = (substring 8 2 ts, ts) /\
  getTimeText (ts ++ "." ++ rest)%string = (substring 8 2 ts, ts) /\
  getTimeText (dir ++ "/" ++ ts)%string = (substring 8 2 ts, ts) /\
  getTimeText ts = (substring 8 2 ts, ts).
Proof.
  intros Hslash Hdot Hrest.
  assert (Hname : Py.str_in "/" (ts ++ "." ++ rest)%string = false).
  { rewrite char_in_app, Hslash. cbn [append]. rewrite char_in_cons, Hrest. reflexivity. }
  assert (Hfirst : hd EmptyString (Py.split "." (ts ++ "." ++ rest)%string) = ts)
    by (apply split_first_piece; exact Hdot).
  unfold getTimeText. repeat split.
  - change (dir ++ "/" ++ ts ++ "." ++ rest)%string
      with (dir ++ String "/" (ts ++ "." ++ rest))%string.
    rewrite (split_last_piece "/" dir _ Hname). now rewrite Hfirst.
  - rewrite (split_no_sep "/" _ Hname). cbn [last]. now rewrite Hfirst.
  - change (dir ++ "/" ++ ts)%string with (dir ++ String "/" ts)%string.
    rewrite (split_last_piece "/" dir _ Hslash).
    now rewrite (split_no_sep "." ts Hdot).
  - rewrite (split_no_sep "/" ts Hslash). cbn [last].
    now rewrite (split_no_sep "." ts Hdot).
Qed.

Lemma getTimeText_of_path_witness :
  getTimeText
    ("/home/grm/working/2019-09-26T135930" ++ "/" ++ "20190926110000" ++ "."
     ++ "ALZ.003.S39z.txt")%string
  = ("11", "20190926110000").
Proof.
  exact (proj1 (getTimeText_of_path "/home/grm/working/2019-09-26T135930"
                  "20190926110000" "ALZ.003.S39z.txt" eq_refl eq_refl eq_refl)).
Defined.

Lemma str_append_assoc (a b c : string) :
  ((a ++ b) ++ c)%string = (a ++ (b ++ c))%string.
Proof. induction a as [| x a IH]; [reflexivity |]. cbn [append]. now rewrite IH. Qed.

(** A string that contains [c ++ s] contains the character [c]. *)
Lemma str_in_first_char (c : ascii) (s t : string) :
  Py.str_in (String c s) t = true -> Py.str_in (String c EmptyString) t = true.
Proof.
  induction t as [| d t IH]; cbn [Py.str_in prefix]; [discriminate |].
  intros H. apply orb_true_iff in H. destruct H as [H | H].
  - destruct (ascii_dec c d); [| discriminate]. now rewrite prefix_nil.
  - rewrite (IH H). apply orb_true_r.
Qed.

(** [base + '.' + ext] splits on ['.' + ext] right at the end, when
    ['.' + ext] does not occur in [base] and [ext] has no ['.']. *)
Lemma split_first_extension (base ext : string) :
  Py.str_in "." ext = false ->
  Py.str_in (String "." ext) base = false ->
  Str.split_first (String "." ext) (base ++ String "." ext)%string = base.
Proof.
  intros Hext. induction base as [| c base IH]; intros Hbase.
  - cbn [append Str.split_first]. now rewrite prefix_refl.
  - cbn [Py.str_in] in Hbase. apply orb_false_iff in Hbase.
    destruct Hbase as [Hpre Hrest].
    assert (Hno : prefix (String "." ext) (String c base ++ String "." ext)%string = false).
    { destruct (prefix (String "." ext) (String c base ++ String "." ext)%string) eqn:E;
        [| reflexivity].
      apply prefix_app_inv in E. destruct E as [E | [s2 [Hs Hs2]]]; [congruence |].
      cbn [append] in Hs. injection Hs as Hc Hs. subst ext.
      destruct s2 as [| d s2].
      - exfalso. rewrite <- Hc in Hpre.
        assert (E : (base ++ "")%string = base)
          by (clear; induction base as [| x b IHb]; [reflexivity | cbn; now rewrite IHb]).
        rewrite E in Hpre. now rewrite prefix_refl in Hpre.
      - exfalso. cbn [prefix] in Hs2. destruct (ascii_dec d "."); [| discriminate].
        subst d. rewrite char_in_app, char_in_cons, Ascii.eqb_refl in Hext.
        rewrite orb_true_r in Hext. discriminate. }
    change (String c base ++ String "." ext)%string
      with (String c (base ++ String "." ext)%string) in *.
    cbn [Str.split_first]. rewrite Hno. now rewrite (IH Hrest).
Qed.

(** X2: [getSensorCodeInfo] of [pre.code.ext]. When the token [code] is not
    empty and has no ['.'], the extension has no ['.'], and ['.' + ext]
    does not occur before the extension, the function returns the token
    as the code with channel, and as the bare code the token without its
    last letter when that letter is lower case, the whole token otherwise.
    The same holds for a name [code.ext] without anything in front. *)
Theorem getSensorCodeInfo_of_name (pre code ext : string) (lastLetter : ascii) :
  Str.last_char code = Some lastLetter ->
  Py.str_in "." code = false ->
  Py.str_in "." ext = false ->
  Py.str_in (String "." ext) (pre ++ "." ++ code)%string = false ->
  getSensorCodeInfo (pre ++ "." ++ code ++ "." ++ ext)%string
  = Ok (if Str.islower lastLetter then Str.drop_last code else code, code) /\
  getSensorCodeInfo (code ++ "." ++ ext)%string
  = Ok (if Str.islower lastLetter then Str.drop_last code else code, code).
Proof.
  intros Hlast Hcode Hext Hbase.
  assert (Hcode' : Py.str_in (String "." ext) code = false).
  { destruct (Py.str_in (String "." ext) code) eqn:E; [| reflexivity].
    apply str_in_first_char in E. congruence. }
  split; unfold getSensorCodeInfo.
  - replace (pre ++ "." ++ code ++ "." ++ ext)%string
      with ((pre ++ "." ++ code) ++ String "." ext)%string
      by (rewrite !str_append_assoc; reflexivity).
    rewrite (split_last_piece "." _ ext Hext).
    change ("." ++ ext)%string with (String "." ext).
    rewrite (split_first_extension _ ext Hext Hbase).
    change (pre ++ "." ++ code)%string with (pre ++ String "." code)%string.
    rewrite (split_last_piece "." pre code Hcode). now rewrite Hlast.
  - change (code ++ "." ++ ext)%string with (code ++ String "." ext)%string.
    rewrite (split_last_piece "." _ ext Hext).
    change ("." ++ ext)%string with (String "." ext).
    rewrite (split_first_extension _ ext Hext Hcode').
    rewrite (split_no_sep "." code Hcode). cbn [last]. now rewrite Hlast.
Qed.

Lemma getSensorCodeInfo_of_name_witness :
  getSensorCodeInfo ("/data/20190926100000.ALZ.001" ++ "." ++ "B4Fx" ++ "." ++ "m")%string
  = Ok ("B4F", "B4Fx").
Proof.
  exact (proj1 (getSensorCodeInfo_of_name "/data/20190926100000.ALZ.001" "B4Fx" "m" "x"
                  eq_refl eq_refl eq_refl eq_refl)).
Defined.

(** Where ['.' + ext] occurs earlier in the path, the base is cut there:
    a directory whose name starts with [.m] leaves no token at all. *)
Example getSensorCodeInfo_early_extension :
  getSensorCodeInfo ".mseed/20190926100000.ALZ.001.B4Fx.m" = Raise IndexError /\
  getSensorCodeInfo "/data.m/20190926100000.ALZ.001.B4Fx.m" = Ok ("/dat", "/data").
Proof. split; reflexivity. Qed.

(** X3: [getAxis] is decided by the last character: ['x'] and ['N'] give
    ["X"], ['y'] and ['W'] give ["Y"], ['z'] and ['Z'] give ["Z"]; any
    other last character raises [KeyError] with that character as key, and
    the empty string raises [IndexError]. So a returned axis is always one
    of ["X"], ["Y"], ["Z"]. *)
Theorem getAxis_by_last_character (s : string) :
  (Str.last_char s = None -> getAxis s = Raise IndexError) /\
  (forall c, Str.last_char s = Some c ->
     ((c = "x"%char \/ c = "N"%char) -> getAxis s = Ok "X") /\
     ((c = "y"%char \/ c = "W"%char) -> getAxis s = Ok "Y") /\
     ((c = "z"%char \/ c = "Z"%char) -> getAxis s = Ok "Z") /\
     (c <> "x"%char -> c <> "y"%char -> c <> "z"%char ->
      c <> "N"%char -> c <> "W"%char -> c <> "Z"%char ->
      getAxis s = Raise (KeyError (String c EmptyString)))) /\
  (forall a, getAxis s = Ok a -> a = "X" \/ a = "Y" \/ a = "Z").
Proof.
  unfold getAxis. split; [| split].
  - intros H. now rewrite H.
  - intros c H. rewrite H. repeat split.
    + intros [-> | ->]; reflexivity.
    + intros [-> | ->]; reflexivity.
    + intros [-> | ->]; reflexivity.
    + intros Hx Hy Hz HN HW HZ.
      apply Ascii.eqb_neq in Hx, Hy, Hz, HN, HW, HZ.
      unfold Py.list_in. cbn [existsb String.eqb].
      now rewrite Hx, Hy, Hz, HN, HW, HZ.
  - intros a. destruct (Str.last_char s) as [c |]; [| discriminate].
    unfold Py.list_in. cbn [existsb String.eqb].
    destruct (Ascii.eqb c "x") eqn:Ex; cbn [andb orb].
    { apply Ascii.eqb_eq in Ex. subst c. intros H. injection H as <-. now left. }
    destruct (Ascii.eqb c "y") eqn:Ey; cbn [andb orb].
    { apply Ascii.eqb_eq in Ey. subst c. intros H. injection H as <-. right. now left. }
    destruct (Ascii.eqb c "z") eqn:Ez; cbn [andb orb].
    { apply Ascii.eqb_eq in Ez. subst c. intros H. injection H as <-. right. now right. }
    destruct (Ascii.eqb c "N"); [intros H; injection H as <-; now left |].
    destruct (Ascii.eqb c "W"); [intros H; injection H as <-; right; now left |].
    destruct (Ascii.eqb c "Z"); [intros H; injection H as <-; right; now right |].
    discriminate.
Qed.





(* ===================================================================== *)
(** * More on the file ordering *)
(* ===================================================================== *)

Lemma count_occ_repeat (a f : string) (n : nat) :
  count_occ string_dec (repeat a n) f = if string_dec a f then n else 0.
Proof.
  induction n as [| n IH]; cbn [repeat count_occ].
  - now destruct (string_dec a f).
  - rewrite IH. now destruct (string_dec a f).
Qed.

Lemma count_occ_flat_map_repeat (k : string -> nat) (l : list string) (f : string) :
  count_occ string_dec (flat_map (fun g => repeat g (k g)) l) f
  = count_occ string_dec l f * k f.
Proof.
  induction l as [| a l IH]; [reflexivity |].
  cbn [flat_map count_occ]. rewrite count_occ_app, count_occ_repeat, IH.
  destruct (string_dec a f) as [-> | Hne]; lia.
Qed.

(** X5: what [sortFilesBySensorCode] keeps. Every file is returned once per
    sensor code that occurs in its name or path, for each time it is in the
    input: a file without any sensor code is never returned, and nothing
    is returned that was not in the input. *)
Theorem sortFilesBySensorCode_occurrences (inputFileList : list string) (f : string) :
  count_occ string_dec (sortFilesBySensorCode inputFileList) f
  = count_occ string_dec inputFileList f * List.length (codes_in f) /\
  (In f (sortFilesBySensorCode inputFileList) <->
   In f inputFileList /\ codes_in f <> []).
Proof.
  assert (Hcount : count_occ string_dec (sortFilesBySensorCode inputFileList) f
                   = count_occ string_dec inputFileList f * List.length (codes_in f)).
  { transitivity
      (count_occ string_dec
         (flat_map (fun g => repeat g (List.length (codes_in g))) inputFileList) f).
    - apply Permutation_count_occ, sortFilesBySensorCode_multiset.
    - apply (count_occ_flat_map_repeat (fun g => List.length (codes_in g))). }
  split; [exact Hcount |].
  rewrite (count_occ_In string_dec), Hcount, (count_occ_In string_dec).
  destruct (codes_in f) as [| c cs]; cbn [List.length]; split.
  - lia.
  - intros [_ H]. congruence.
  - intros H. split; [nia | discriminate].
  - intros [H _]. nia.
Qed.

Lemma string_ltb_swap (a b : string) :
  a <> b -> String.ltb b a = negb (String.ltb a b).
Proof.
  intros Hne. unfold String.ltb. rewrite (String.compare_antisym b a).
  destruct (String.compare a b) eqn:E; cbn [CompOpp negb]; try reflexivity.
  apply String.compare_eq_iff in E. contradiction.
Qed.

(** X6: the order in which Python enumerates the set of time tuples does not
    matter when the two hours differ: both enumerations put first the files
    of the tuple with the smaller hour. With two timestamps of the same
    hour the result does depend on the enumeration. *)
Theorem sortFiles_enumeration_order (t0 t1 : string * string) (inputFileList : list string) :
  (fst t0 <> fst t1 ->
   sortFilesFrom [t0; t1] inputFileList = sortFilesFrom [t1; t0] inputFileList) /\
  (String.ltb (fst t0) (fst t1) = true ->
   sortFilesFrom [t0; t1] inputFileList
   = Some (sortFilesBySensorCode (filter (Py.str_in (snd t0)) inputFileList)
           ++ sortFilesBySensorCode
                (filter (fun f => negb (Py.str_in (snd t0) f)) inputFileList))) /\
  sortFilesFrom [getTimeText "20190926100000.ALZ.001.B4Fx.txt";
                 getTimeText "20190926103000.ALZ.001.B4Fx.txt"] same_hour_files
  <> sortFilesFrom [getTimeText "20190926103000.ALZ.001.B4Fx.txt";
                    getTimeText "20190926100000.ALZ.001.B4Fx.txt"] same_hour_files.
Proof.
  split; [| split].
  - intros Hne. unfold sortFilesFrom. cbn [List.length Nat.eqb nth].
    rewrite (string_ltb_swap (fst t0) (fst t1) Hne).
    now destruct (String.ltb (fst t0) (fst t1)).
  - intros Hlt. unfold sortFilesFrom. cbn [List.length Nat.eqb nth]. now rewrite Hlt.
  - vm_compute. discriminate.
Qed.

Lemma string_leb_trans (a b c : string) :
  String.leb a b = true -> String.leb b c = true -> String.leb a c = true.
Proof.
  unfold String.leb. revert b c.
  induction a as [| x a IH]; intros [| y b] [| z c]; cbn [String.compare]; try easy.
  unfold Ascii.compare.
  destruct (N.compare_spec (N_of_ascii x) (N_of_ascii y)),
           (N.compare_spec (N_of_ascii y) (N_of_ascii z)),
           (N.compare_spec (N_of_ascii x) (N_of_ascii z)); try easy; try lia.
  apply IH.
Qed.

Lemma string_leb_refl (a : string) : String.leb a a = true.
Proof. destruct (String.leb_total a a); assumption. Qed.

Lemma insert_sorted_SSorted (x : string) (l : list string) :
  StronglySorted name_le l -> StronglySorted name_le (Py.insert_sorted x l).
Proof.
  induction l as [| y l IH]; intros Hs; cbn [Py.insert_sorted].
  - constructor; constructor.
  - apply StronglySorted_inv in Hs. destruct Hs as [Hl Hy].
    destruct (String.leb x y) eqn:E.
    + constructor; [constructor; assumption |].
      constructor; [exact E |].
      eapply Forall_impl; [| exact Hy]. intros z Hz.
      now apply string_leb_trans with y.
    + constructor; [now apply IH |].
      apply (Permutation_Forall (insert_sorted_perm x l)).
      constructor; [| exact Hy].
      destruct (String.leb_total x y) as [H | H]; [congruence | exact H].
Qed.

Lemma sorted_SSorted (l : list string) : StronglySorted name_le (Py.sorted l).
Proof.
  unfold Py.sorted. induction l as [| x l IH]; cbn [fold_right]; [constructor |].
  now apply insert_sorted_SSorted.
Qed.

(** Sorting a sorted list changes nothing. *)
Lemma sorted_fixed (l : list string) : StronglySorted name_le l -> Py.sorted l = l.
Proof.
  unfold Py.sorted. induction l as [| x l IH]; intros Hs; [reflexivity |].
  apply StronglySorted_inv in Hs. destruct Hs as [Hl Hx].
  cbn [fold_right]. rewrite (IH Hl).
  destruct l as [| y l]; [reflexivity |]. cbn [Py.insert_sorted].
  apply Forall_inv in Hx. unfold name_le in Hx. now rewrite Hx.
Qed.

Lemma SSorted_app {A : Type} (R : A -> A -> Prop) (l1 l2 : list A) :
  StronglySorted R l1 -> StronglySorted R l2 ->
  (forall x y, In x l1 -> In y l2 -> R x y) ->
  StronglySorted R (l1 ++ l2).
Proof.
  induction l1 as [| a l1 IH]; intros H1 H2 Hx; [exact H2 |].
  apply StronglySorted_inv in H1. destruct H1 as [H1 Ha].
  cbn [app]. constructor.
  - apply IH; [assumption | assumption |]. intros x y Hin. apply Hx. now right.
  - apply Forall_app. split; [exact Ha |].
    apply Forall_forall. intros y Hy. apply Hx; [now left | exact Hy].
Qed.

Lemma SSorted_impl_in {A : Type} (R R' : A -> A -> Prop) (l : list A) :
  (forall x y, In x l -> In y l -> R x y -> R' x y) ->
  StronglySorted R l -> StronglySorted R' l.
Proof.
  induction l as [| a l IH]; intros Himp Hs; [constructor |].
  apply StronglySorted_inv in Hs. destruct Hs as [Hl Ha]. constructor.
  - apply IH; [| exact Hl]. intros x y Hx Hy. apply Himp; now right.
  - rewrite Forall_forall in *. intros y Hy.
    apply Himp; [now left | now right | now apply Ha].
Qed.

(** The files of one group: the files of the input that contain the code. *)
Lemma In_group (l : list string) (code f : string) :
  In f (Py.sorted (filter (Py.str_in code) l)) <-> In f l /\ Py.str_in code f = true.
Proof.
  rewrite <- filter_In. split; intros H.
  - apply (Permutation_in _ (Permutation_sym (sorted_perm _)) H).
  - apply (Permutation_in _ (sorted_perm _) H).
Qed.

(** A file with exactly one sensor code has the rank of that code. *)
Lemma first_index_single {A : Type} (p : A -> bool) (cs : list A) (i : nat) (c : A) :
  List.length (filter p cs) = 1 -> nth_error cs i = Some c -> p c = true ->
  first_index p cs = Some i.
Proof.
  revert i. induction cs as [| a cs IH]; intros i Hone Hnth Hc.
  - destruct i; discriminate.
  - cbn [filter first_index] in *. destruct i as [| i]; cbn [nth_error] in Hnth.
    + injection Hnth as ->. now rewrite Hc.
    + destruct (p a) eqn:Ha.
      * exfalso. cbn [List.length] in Hone.
        assert (Hin : In c (filter p cs))
          by (apply filter_In; split; [now apply nth_error_In with i | exact Hc]).
        destruct (filter p cs); [destruct Hin | discriminate].
      * now rewrite (IH i Hone Hnth Hc).
Qed.

Lemma code_rank_of_group (f code : string) (i : nat) :
  List.length (codes_in f) = 1 -> nth_error SENSOR_CODES i = Some code ->
  Py.str_in code f = true -> code_rank f = i.
Proof.
  intros Hone Hnth Hc. unfold code_rank.
  now rewrite (first_index_single (fun c => Py.str_in c f) SENSOR_CODES i code Hone Hnth Hc).
Qed.

Lemma groups_report_order (l : list string) :
  (forall f, In f l -> List.length (codes_in f) = 1) ->
  forall (cs : list string) (k : nat),
    (forall j c, nth_error cs j = Some c -> nth_error SENSOR_CODES (k + j) = Some c) ->
    StronglySorted report_le
      (List.concat (map (fun code => Py.sorted (filter (Py.str_in code) l)) cs)) /\
    Forall (fun f => k <= code_rank f)
      (List.concat (map (fun code => Py.sorted (filter (Py.str_in code) l)) cs)).
Proof.
  intros Hone cs. induction cs as [| c cs IH]; intros k Hcs; cbn [map List.concat].
  - split; constructor.
  - assert (Hrank : forall f, In f (Py.sorted (filter (Py.str_in c) l)) -> code_rank f = k).
    { intros f Hf. apply In_group in Hf. destruct Hf as [Hf Hc].
      apply code_rank_of_group with c; [now apply Hone | | exact Hc].
      rewrite <- (Nat.add_0_r k). now apply Hcs. }
    destruct (IH (S k)) as [Hs Hge].
    { intros j c' Hj. replace (S k + j) with (k + S j) by lia. now apply Hcs. }
    split.
    + apply SSorted_app.
      * apply SSorted_impl_in with name_le; [| apply sorted_SSorted].
        intros x y Hx Hy Hle. right. split; [| exact Hle].
        now rewrite (Hrank x Hx), (Hrank y Hy).
      * exact Hs.
      * intros x y Hx Hy. left. rewrite (Hrank x Hx).
        rewrite Forall_forall in Hge. specialize (Hge y Hy). lia.
    + apply Forall_app. split.
      * apply Forall_forall. intros f Hf. rewrite (Hrank f Hf). lia.
      * eapply Forall_impl; [| exact Hge]. intros f Hf. cbn beta in Hf. lia.
Qed.

(** X7: the order of the output. When every file name contains exactly one
    sensor code, the list that [sortFilesBySensorCode] returns is sorted
    in report order: a file comes before every file of a later sensor
    code, and within one sensor code the names ascend. *)
Theorem sortFilesBySensorCode_report_order (inputFileList : list string) :
  (forall f, In f inputFileList -> List.length (codes_in f) = 1) ->
  StronglySorted report_le (sortFilesBySensorCode inputFileList).
Proof.
  intros Hone. rewrite sortFilesBySensorCode_groups.
  apply (groups_report_order inputFileList Hone SENSOR_CODES 0).
  intros j c Hj. exact Hj.
Qed.

Lemma sortFilesBySensorCode_report_order_witness :
  StronglySorted report_le (sortFilesBySensorCode two_hour_files).
Proof.
  exact (sortFilesBySensorCode_report_order two_hour_files two_hour_files_codes).
Defined.

Lemma filter_all_true {A : Type} (p : A -> bool) (l : list A) :
  (forall x, In x l -> p x = true) -> filter p l = l.
Proof.
  induction l as [| a l IH]; intros H; [reflexivity |]. cbn [filter].
  rewrite (H a (or_introl eq_refl)). f_equal. apply IH. intros x Hx. apply H. now right.
Qed.

Lemma filter_all_false {A : Type} (p : A -> bool) (l : list A) :
  (forall x, In x l -> p x = false) -> filter p l = [].
Proof.
  induction l as [| a l IH]; intros H; [reflexivity |]. cbn [filter].
  rewrite (H a (or_introl eq_refl)). apply IH. intros x Hx. apply H. now right.
Qed.

Lemma two_in_length (a b : string) (l : list string) :
  In a l -> In b l -> a <> b -> 2 <= List.length l.
Proof.
  intros Ha Hb Hne. destruct l as [| x [| y l]]; cbn [List.length]; [destruct Ha | | lia].
  destruct Ha as [<- | []], Hb as [<- | []]. congruence.
Qed.

(** A file with at most one sensor code contains no second one. *)
Lemma one_code_unique (f c c' : string) :
  List.length (codes_in f) <= 1 ->
  In c SENSOR_CODES -> In c' SENSOR_CODES ->
  Py.str_in c f = true -> Py.str_in c' f = true -> c = c'.
Proof.
  intros Hone Hc Hc' Hf Hf'.
  destruct (string_dec c c') as [E | Hne]; [exact E | exfalso].
  assert (H : 2 <= List.length (codes_in f)).
  { apply two_in_length with c c'; [| | exact Hne]; apply filter_In; now split. }
  lia.
Qed.

Lemma NoDup_SENSOR_CODES : NoDup SENSOR_CODES.
Proof.
  unfold SENSOR_CODES.
  repeat (constructor; [cbn [In]; intros H;
                        repeat (destruct H as [H | H]; [discriminate H |]); exact H |]).
  constructor.
Qed.

(** Selecting one code from the sorted output gives back its group. *)
Lemma filter_groups (l : list string) (c : string) :
  (forall f, In f l -> List.length (codes_in f) <= 1) ->
  In c SENSOR_CODES ->
  forall cs : list string,
    NoDup cs -> incl cs SENSOR_CODES ->
    filter (Py.str_in c)
      (List.concat (map (fun code => Py.sorted (filter (Py.str_in code) l)) cs))
    = if in_dec string_dec c cs then Py.sorted (filter (Py.str_in c) l) else [].
Proof.
  intros Hone Hc cs. induction cs as [| a cs IH]; intros Hnd Hincl; [reflexivity |].
  apply NoDup_cons_iff in Hnd. destruct Hnd as [Ha Hnd].
  assert (Hincl' : incl cs SENSOR_CODES) by (intros x Hx; apply Hincl; now right).
  cbn [map List.concat]. rewrite filter_app, (IH Hnd Hincl').
  destruct (string_dec a c) as [-> | Hne].
  - rewrite filter_all_true by (intros x Hx; now apply In_group in Hx).
    destruct (in_dec string_dec c cs) as [Hin | _]; [contradiction |].
    destruct (in_dec string_dec c (c :: cs)) as [_ | Hn]; [apply app_nil_r |].
    elim Hn. now left.
  - rewrite filter_all_false.
    + cbn [app]. destruct (in_dec string_dec c cs) as [Hin | Hnin],
                          (in_dec string_dec c (a :: cs)) as [Hin' | Hnin'];
        try reflexivity.
      * elim Hnin'. now right.
      * destruct Hin' as [E | Hin']; [congruence | contradiction].
    + intros x Hx. apply In_group in Hx. destruct Hx as [Hx Hax].
      destruct (Py.str_in c x) eqn:E; [| reflexivity]. exfalso. apply Hne.
      apply (one_code_unique x a c (Hone x Hx)); try assumption.
      apply Hincl. now left.
Qed.

Lemma sortFilesBySensorCode_fixed (l : list string) :
  (forall f, In f l -> List.length (codes_in f) <= 1) ->
  sortFilesBySensorCode (sortFilesBySensorCode l) = sortFilesBySensorCode l.
Proof.
  intros Hone. rewrite (sortFilesBySensorCode_groups (sortFilesBySensorCode l)).
  etransitivity; [| symmetry; apply sortFilesBySensorCode_groups]. f_equal.
  apply map_ext_in. intros c Hc.
  rewrite (sortFilesBySensorCode_groups l).
  rewrite (filter_groups l c Hone Hc SENSOR_CODES NoDup_SENSOR_CODES (incl_refl _)).
  destruct (in_dec string_dec c SENSOR_CODES) as [_ | Hn]; [| contradiction].
  apply sorted_fixed, sorted_SSorted.
Qed.

(** X8: sorting twice is sorting once. When no file name contains more than
    one sensor code, [sortFilesBySensorCode] returns its own output
    unchanged. *)
Theorem sortFilesBySensorCode_idempotent (inputFileList : list string) :
  (forall f, In f inputFileList -> List.length (codes_in f) <= 1) ->
  sortFilesBySensorCode (sortFilesBySensorCode inputFileList)
  = sortFilesBySensorCode inputFileList.
Proof. exact (sortFilesBySensorCode_fixed inputFileList). Qed.

Lemma two_hour_files_at_most_one_code (f : string) :
  In f two_hour_files -> List.length (codes_in f) <= 1.
Proof. intros H. rewrite (two_hour_files_codes f H). exact (le_n 1). Defined.

Lemma sortFilesBySensorCode_idempotent_witness :
  sortFilesBySensorCode (sortFilesBySensorCode two_hour_files)
  = sortFilesBySensorCode two_hour_files.
Proof.
  exact (sortFilesBySensorCode_idempotent two_hour_files two_hour_files_at_most_one_code).
Defined.

(** Without the condition the output grows: a path with two sensor codes
    is listed twice by the first call and four times by the second. *)
Example sortFilesBySensorCode_not_idempotent :
  List.length (sortFilesBySensorCode ["/data/FF/20190926100000.ALZ.001.N39x.txt"]) = 2 /\
  List.length (sortFilesBySensorCode
                 (sortFilesBySensorCode ["/data/FF/20190926100000.ALZ.001.N39x.txt"])) = 4.
Proof. split; reflexivity. Qed.

Lemma sortFilesBySensorCode_In (l : list string) (f : string) :
  In f (sortFilesBySensorCode l) -> In f l.
Proof.
  intros H. apply (Permutation_in _ (sortFilesBySensorCode_multiset l)) in H.
  apply in_flat_map in H. destruct H as [g [Hg Hf]].
  apply repeat_spec in Hf. now subst.
Qed.

Lemma sortFilesFrom_swap (t0 t1 : string * string) (l : list string) :
  fst t0 <> fst t1 -> sortFilesFrom [t0; t1] l = sortFilesFrom [t1; t0] l.
Proof.
  intros Hne. unfold sortFilesFrom. cbn [List.length Nat.eqb nth].
  rewrite (string_ltb_swap (fst t0) (fst t1) Hne).
  now destruct (String.ltb (fst t0) (fst t1)).
Qed.

Lemma sortFilesFrom_perm (u : list (string * string)) (l out : list string) :
  (forall f, In f l -> List.length (codes_in f) = 1) ->
  sortFilesFrom u l = Some out -> Permutation l out.
Proof.
  intros Hone. unfold sortFilesFrom.
  destruct (List.length u =? 1)%nat.
  - intros H. injection H as <-. now apply sortFilesBySensorCode_perm.
  - destruct (List.length u =? 2)%nat; [| discriminate].
    intros H. injection H as <-.
    eapply perm_trans; [apply filter_split_perm |].
    apply Permutation_app; apply sortFilesBySensorCode_perm;
      intros f Hf; apply filter_In in Hf; now apply Hone.
Qed.

(** With the enumeration of the time tuples fixed, ordering an ordered
    list returns it unchanged. *)
Lemma sortFilesFrom_fixed (u : list (string * string)) (l out : list string) :
  (forall f, In f l -> List.length (codes_in f) <= 1) ->
  sortFilesFrom u l = Some out -> sortFilesFrom u out = Some out.
Proof.
  intros Hone. unfold sortFilesFrom.
  destruct (List.length u =? 1)%nat.
  - intros H. injection H as <-. now rewrite sortFilesBySensorCode_fixed.
  - destruct (List.length u =? 2)%nat; [| discriminate].
    set (firstTime :=
           if String.ltb (fst (nth 0 u (EmptyString, EmptyString)))
                         (fst (nth 1 u (EmptyString, EmptyString)))
           then snd (nth 0 u (EmptyString, EmptyString))
           else snd (nth 1 u (EmptyString, EmptyString))).
    intros H. injection H as <-. rewrite !filter_app.
    assert (HA : forall x, In x (sortFilesBySensorCode (filter (Py.str_in firstTime) l)) ->
                           Py.str_in firstTime x = true).
    { intros x Hx. apply sortFilesBySensorCode_In, filter_In in Hx. tauto. }
    assert (HB : forall x,
               In x (sortFilesBySensorCode
                       (filter (fun f => negb (Py.str_in firstTime f)) l)) ->
               Py.str_in firstTime x = false).
    { intros x Hx. apply sortFilesBySensorCode_In, filter_In in Hx.
      destruct Hx as [_ Hx]. now apply negb_true_iff in Hx. }
    rewrite (filter_all_true _ _ HA), (filter_all_false _ _ HB), app_nil_r.
    rewrite (filter_all_false (fun f => negb (Py.str_in firstTime f))
               (sortFilesBySensorCode (filter (Py.str_in firstTime) l)))
      by (intros x Hx; now rewrite (HA x Hx)).
    rewrite (filter_all_true (fun f => negb (Py.str_in firstTime f))
               (sortFilesBySensorCode
                  (filter (fun f => negb (Py.str_in firstTime f)) l)))
      by (intros x Hx; now rewrite (HB x Hx)).
    cbn [app].
    rewrite !sortFilesBySensorCode_fixed;
      [reflexivity | |]; intros f Hf; apply filter_In in Hf; now apply Hone.
Qed.

(** X9: [sortFiles] is idempotent on well-named inputs. When every file
    name contains exactly one sensor code, and two different time tuples of
    the input never share their hour, ordering the list that [sortFiles]
    returned gives that list again. *)
Theorem sortFiles_idempotent (inputFileList out : list string) :
  (forall f, In f inputFileList -> List.length (codes_in f) = 1) ->
  (forall t t', In t (map getTimeText inputFileList) ->
                In t' (map getTimeText inputFileList) ->
                t <> t' -> fst t <> fst t') ->
  sortFiles inputFileList = Some out ->
  sortFiles out = Some out.
Proof.
  intros Hone Hhours Hout. unfold sortFiles in *.
  set (u := nodup timeTuple_eq_dec (map getTimeText inputFileList)) in *.
  set (u' := nodup timeTuple_eq_dec (map getTimeText out)).
  assert (Hperm : Permutation inputFileList out)
    by (apply sortFilesFrom_perm with u; assumption).
  assert (Hu : Permutation u u').
  { apply NoDup_Permutation; try apply NoDup_nodup.
    intros t. unfold u, u'. rewrite !nodup_In. split; intros H.
    - apply (Permutation_in _ (Permutation_map getTimeText Hperm) H).
    - apply (Permutation_in _ (Permutation_sym (Permutation_map getTimeText Hperm)) H). }
  assert (Hle : forall f, In f inputFileList -> List.length (codes_in f) <= 1)
    by (intros f Hf; rewrite (Hone f Hf); lia).
  pose proof (sortFilesFrom_fixed u inputFileList out Hle Hout) as Hfix.
  destruct u as [| t0 [| t1 [| t2 u2]]] eqn:Eu.
  - discriminate Hout.
  - apply Permutation_length_1_inv in Hu. now rewrite Hu.
  - apply Permutation_length_2_inv in Hu. destruct Hu as [-> | ->]; [exact Hfix |].
    rewrite <- sortFilesFrom_swap; [exact Hfix |].
    assert (Hnd : NoDup [t0; t1]) by (rewrite <- Eu; apply NoDup_nodup).
    assert (Hin : forall t, In t [t0; t1] -> In t (map getTimeText inputFileList)).
    { intros t Ht. rewrite <- Eu in Ht. unfold u in Ht. now rewrite nodup_In in Ht. }
    apply Hhours; [apply Hin; now left | apply Hin; right; now left |].
    apply NoDup_cons_iff in Hnd. destruct Hnd as [Hnd _].
    intros ->. apply Hnd. now left.
  - discriminate Hout.
Qed.

Lemma two_hour_files_hours (t t' : string * string) :
  In t (map getTimeText two_hour_files) -> In t' (map getTimeText two_hour_files) ->
  t <> t' -> fst t <> fst t'.
Proof.
  intros H H' Hne.
  cbn [two_hour_files map In] in H, H'.
  repeat (destruct H as [H | H]; [| idtac]); try (now destruct H);
    repeat (destruct H' as [H' | H']; [| idtac]); try (now destruct H');
    subst t t'; vm_compute; try discriminate; now elim Hne.
Defined.

Lemma sortFiles_idempotent_witness :
  sortFiles
    ["20190926100000.ALZ.003.S39z.txt"; "20190926100000.ALZ.001.B4Fx.txt";
     "20190926110000.ALZ.003.S39z.txt"; "20190926110000.ALZ.004.FFN.txt"]
  = Some ["20190926100000.ALZ.003.S39z.txt"; "20190926100000.ALZ.001.B4Fx.txt";
          "20190926110000.ALZ.003.S39z.txt"; "20190926110000.ALZ.004.FFN.txt"].
Proof.
  exact (sortFiles_idempotent two_hour_files _ two_hour_files_codes two_hour_files_hours
           eq_refl).
Defined.

(* ===================================================================== *)
(** * Zero padding *)
(* ===================================================================== *)

Lemma lookup_combine_map (F : string -> Series) (cs : list string) (c : string) :
  In c cs -> lookup (combine cs (map F cs)) c = Some (F c).
Proof.
  induction cs as [| a cs IH]; intros Hin; [destruct Hin |].
  cbn [map combine lookup]. destruct (String.eqb a c) eqn:E.
  - apply String.eqb_eq in E. now subst.
  - destruct Hin as [-> | Hin]; [now rewrite String.eqb_refl in E | now apply IH].
Qed.

(** The padded version of one column of [df]. *)
Lemma padded_column (df : DataFrame) (column : string) (col : Series) :
  lookup df column = Some col ->
  (col' <- getitem df column ;;
   if String.eqb column "timestamp"
   then Ok (repeat PyNone zeroPadLength ++ col' ++ repeat PyNone zeroPadLength)
   else Ok (repeat (PyInt 0) zeroPadLength ++ col' ++ repeat (PyInt 0) zeroPadLength))
  = Ok (repeat (pad_cell column) zeroPadLength ++ col
        ++ repeat (pad_cell column) zeroPadLength).
Proof.
  intros H. unfold getitem, pad_cell. rewrite H. cbn [bind].
  now destruct (String.eqb column "timestamp").
Qed.

Lemma getZeroPaddedDf_all (df : DataFrame) (columns : list string) :
  (forall c, In c columns -> lookup df c <> None) ->
  getZeroPaddedDf df columns
  = Ok (combine columns
          (map (fun c => repeat (pad_cell c) zeroPadLength
                         ++ match lookup df c with Some col => col | None => [] end
                         ++ repeat (pad_cell c) zeroPadLength) columns)).
Proof.
  intros Hall. unfold getZeroPaddedDf.
  match goal with
  | |- bind (mapM ?f columns) _ = _ =>
      assert (H : mapM f columns
                  = Ok (map (fun c => repeat (pad_cell c) zeroPadLength
                                      ++ match lookup df c with
                                         | Some col => col
                                         | None => []
                                         end
                                      ++ repeat (pad_cell c) zeroPadLength) columns))
  end.
  { induction columns as [| c cs IH]; [reflexivity |].
    cbn [mapM map].
    destruct (lookup df c) as [col |] eqn:E;
      [| now elim (Hall c (or_introl eq_refl))].
    rewrite (padded_column df c col E). cbn [bind].
    rewrite IH by (intros x Hx; apply Hall; now right). reflexivity. }
  rewrite H. reflexivity.
Qed.

(** X10: zero padding. When the frame has every requested column,
    [getZeroPaddedDf] returns a frame with exactly the requested columns,
    and each of them is the column of the input between two pads of
    [zeroPadLength] = 500 cells: 500 null markers (['timestamp']) or 500
    zeros (any other column) in front, the same behind, the input cells
    unchanged in between, so 1000 cells more. When a requested column is
    missing, the call raises [KeyError] for the first such name. *)
Theorem getZeroPaddedDf_pads (df : DataFrame) (columns : list string) :
  ((forall c, In c columns -> lookup df c <> None) ->
   exists df',
     getZeroPaddedDf df columns = Ok df' /\ column_names df' = columns /\
     forall c col, In c columns -> lookup df c = Some col ->
       exists col',
         lookup df' c = Some col' /\
         List.length col' = List.length col + 2 * zeroPadLength /\
         firstn zeroPadLength col' = repeat (pad_cell c) zeroPadLength /\
         firstn (List.length col) (skipn zeroPadLength col') = col /\
         skipn (zeroPadLength + List.length col) col'
         = repeat (pad_cell c) zeroPadLength) /\
  (forall before c after,
     columns = before ++ c :: after ->
     (forall x, In x before -> lookup df x <> None) ->
     lookup df c = None ->
     getZeroPaddedDf df columns = Raise (KeyError c)).
Proof.
  split.
  - intros Hall.
    pose (F := fun c => repeat (pad_cell c) zeroPadLength
                        ++ match lookup df c with Some col => col | None => [] end
                        ++ repeat (pad_cell c) zeroPadLength).
    exists (combine columns (map F columns)).
    split; [apply (getZeroPaddedDf_all df columns Hall) |]. split.
    + apply map_fst_combine. now rewrite length_map.
    + intros c col Hin Hcol.
      exists (repeat (pad_cell c) zeroPadLength ++ col ++ repeat (pad_cell c) zeroPadLength).
      split;
        [transitivity (Some (F c));
         [exact (lookup_combine_map F columns c Hin) | unfold F; now rewrite Hcol] |].
      assert (Hpad : List.length (repeat (pad_cell c) zeroPadLength) = zeroPadLength)
        by apply repeat_length.
      split; [| split; [| split]].
      * rewrite !length_app, Hpad. lia.
      * rewrite firstn_app, Hpad, Nat.sub_diag. cbn [firstn].
        rewrite app_nil_r. rewrite <- Hpad at 1. apply firstn_all.
      * rewrite skipn_app, Hpad, Nat.sub_diag. cbn [skipn].
        rewrite <- Hpad at 1. rewrite skipn_all. cbn [app].
        rewrite firstn_app, Nat.sub_diag. cbn [firstn].
        rewrite app_nil_r. apply firstn_all.
      * rewrite app_assoc.
        replace (zeroPadLength + List.length col)
          with (List.length (repeat (pad_cell c) zeroPadLength ++ col))
          by (rewrite length_app, Hpad; reflexivity).
        rewrite skipn_app, Nat.sub_diag, skipn_all. reflexivity.
  - intros before c after -> Hbefore Hc. unfold getZeroPaddedDf.
    match goal with
    | |- bind (mapM ?f _) _ = _ =>
        assert (H : mapM f (before ++ c :: after) = Raise (KeyError c))
    end.
    { induction before as [| b before IH]; cbn [app mapM].
      - unfold getitem. rewrite Hc. reflexivity.
      - destruct (lookup df b) as [col |] eqn:E;
          [| now elim (Hbefore b (or_introl eq_refl))].
        rewrite (padded_column df b col E). cbn [bind].
        rewrite IH by (intros x Hx; apply Hbefore; now right). reflexivity. }
    rewrite H. reflexivity.
Qed.

(** The call of the constructor, on a small frame. *)
Example getZeroPaddedDf_raw_frame :
  match getZeroPaddedDf (set_column raw_frame "g" [PyFloat 1; PyFloat 2]) ["timestamp"; "g"] with
  | Ok df => nrows df = 1002 /\ lookup df "count" = None /\
             option_map (firstn 2) (lookup df "g") = Some [PyInt 0; PyInt 0] /\
             option_map (firstn 2) (lookup df "timestamp") = Some [PyNone; PyNone]
  | Raise _ => False
  end.
Proof. vm_compute. repeat split. Qed.

(* ===================================================================== *)
(** * More on the integration *)
(* ===================================================================== *)

Lemma integrate_loop_app (h : float) (a b : list (float * float)) (acc : list float) :
  integrate_loop h (a ++ b) acc = integrate_loop h b (integrate_loop h a acc).
Proof.
  revert acc. induction a as [| z a IH]; intros acc; [reflexivity |].
  cbn [app integrate_loop]. apply IH.
Qed.

Lemma integrate_loop_extends (h : float) (zs : list (float * float)) (acc : list float) :
  exists t, integrate_loop h zs acc = acc ++ t.
Proof.
  revert acc. induction zs as [| z zs IH]; intros acc; cbn [integrate_loop].
  - exists []. now rewrite app_nil_r.
  - destruct (IH (acc ++ [(h * (fst z + snd z) / 2 + last acc 0)%float])) as [t Ht].
    eexists. rewrite Ht, <- app_assoc. reflexivity.
Qed.

Lemma combine_tl_app (a : float) (x y : list float) :
  exists rest,
    combine (a :: x ++ y) (x ++ y) = combine (a :: x) x ++ rest.
Proof.
  revert a. induction x as [| b x IH]; intros a.
  - exists (combine (a :: y) y). reflexivity.
  - destruct (IH b) as [rest Hrest]. exists rest.
    cbn [app combine]. cbn [app combine] in Hrest. now rewrite Hrest.
Qed.

(** X11: the integration is causal. For a series [x] that is not empty, the
    first [len(x)] cells of the integral of [x] followed by any further
    samples are the integral of [x]: an output cell depends only on the
    input cells up to its own index. *)
Theorem integrateSeries_causal (h : float) (x y : list float) :
  x <> [] ->
  firstn (List.length x) (integrateSeries h (x ++ y)) = integrateSeries h x.
Proof.
  intros Hx. destruct x as [| a x]; [congruence |].
  unfold integrateSeries. cbn [app tl].
  destruct (combine_tl_app a x y) as [rest Hrest]. rewrite Hrest.
  rewrite integrate_loop_app.
  destruct (integrate_loop_extends h rest (integrate_loop h (combine (a :: x) x) [0%float]))
    as [t Ht].
  rewrite Ht.
  replace (List.length (a :: x))
    with (List.length (integrate_loop h (combine (a :: x) x) [0%float]) + 0).
  - rewrite firstn_app_2. cbn [firstn]. apply app_nil_r.
  - rewrite integrate_loop_length, length_combine. cbn [List.length]. lia.
Qed.

Lemma integrateSeries_causal_witness :
  firstn 2 (integrateSeries dt ([1; 3] ++ [5; 7])%float) = integrateSeries dt [1; 3]%float.
Proof.
  apply (integrateSeries_causal dt [1; 3]%float [5; 7]%float). discriminate.
Defined.

Lemma integrate_loop_zeros (k m : nat) :
  integrate_loop dt (repeat (0%float, 0%float) k) (repeat 0%float (S m))
  = repeat 0%float (S m + k).
Proof.
  revert m. induction k as [| k IH]; intros m; cbn [repeat integrate_loop].
  - now rewrite Nat.add_0_r.
  - assert (Hlast : last (repeat 0%float (S m)) 0%float = 0%float).
    { clear. induction m as [| m IHm]; [reflexivity |].
      change (repeat 0%float (S (S m))) with (0%float :: repeat 0%float (S m)).
      cbn [last]. exact IHm. }
    change (0%float :: repeat 0%float m) with (repeat 0%float (S m)).
    cbn [fst snd]. rewrite Hlast.
    replace (dt * (0 + 0) / 2 + 0)%float with 0%float by (vm_compute; reflexivity).
    replace (repeat 0%float (S m) ++ [0%float]) with (repeat 0%float (S (S m))).
    + rewrite IH. f_equal. lia.
    + change [0%float] with (repeat 0%float 1). rewrite <- repeat_app. f_equal. lia.
Qed.

(** X12: the integral of silence is silence. With [dt = 1/100], the integral
    of a series of [n] zeros is a series of zeros, of [n] cells (one cell
    when [n = 0]): the zero pads of the constructor integrate to zero. *)
Theorem integrateSeries_zeros (n : nat) :
  integrateSeries dt (repeat 0%float n) = repeat 0%float (Nat.max 1 n).
Proof.
  destruct n as [| n]; [reflexivity |].
  unfold integrateSeries. cbn [repeat tl].
  assert (H : combine (0%float :: repeat 0%float n) (repeat 0%float n)
              = repeat (0%float, 0%float) n).
  { induction n as [| n IH]; [reflexivity |].
    cbn [repeat combine]. f_equal. exact IH. }
  rewrite H. change [0%float] with (repeat 0%float 1).
  rewrite (integrate_loop_zeros n 0). f_equal; lia.
Qed.

(* ===================================================================== *)
(** * Errors of getStats and of the constructor *)
(* ===================================================================== *)

Lemma float_eqb_nan (x : float) : (x =? nan)%float = false.
Proof.
  rewrite eqb_spec. replace (Prim2SF nan) with S754_nan by reflexivity.
  unfold SFeqb. now destruct (Prim2SF x).
Qed.

Lemma first_index_none {A : Type} (p : A -> bool) (l : list A) :
  (forall x, In x l -> p x = false) -> first_index p l = None.
Proof.
  induction l as [| a l IH]; intros H; [reflexivity |]. cbn [first_index].
  rewrite (H a (or_introl eq_refl)), IH; [reflexivity |].
  intros x Hx. apply H. now right.
Qed.

Lemma first_index_bound {A : Type} (p : A -> bool) (l : list A) (i : nat) :
  first_index p l = Some i -> i < List.length l.
Proof.
  revert i. induction l as [| a l IH]; intros i H; cbn [first_index] in H;
    [discriminate |].
  destruct (p a); [injection H as <-; cbn; lia |].
  destruct (first_index p l) as [k |]; [| discriminate].
  injection H as <-. specialize (IH k eq_refl). cbn [List.length]. lia.
Qed.

Lemma all_nan_or_number (col : list float) :
  (forall v, In v col -> is_nan v = true) \/ (exists v, In v col /\ is_nan v = false).
Proof.
  induction col as [| a col [IH | [v [Hv Hn]]]].
  - left. intros v [].
  - destruct (is_nan a) eqn:E.
    + left. intros v [<- | Hv]; [exact E | now apply IH].
    + right. exists a. split; [now left | exact E].
  - right. exists v. split; [now right | exact Hn].
Qed.

(** X13: when [getStats] fails. It raises [KeyError] when the frame has no
    column of that name, and [IndexError] exactly when the column has no
    number at all (it is empty or holds NaN only): the index search for the
    minimum then finds nothing. In every other case on a column of floats
    it returns a PeakStat whose index is a row of the frame. *)
Theorem getStats_errors (round : float -> Z -> float) (df : DataFrame)
    (columnName : string) :
  (lookup df columnName = None ->
   getStats round df columnName = Raise (KeyError columnName)) /\
  (forall col, floats_of df columnName = Ok col ->
     ((forall v, In v col -> is_nan v = true) <->
      getStats round df columnName = Raise IndexError) /\
     ((exists v, In v col /\ is_nan v = false) <->
      exists p, getStats round df columnName = Ok p /\ index p < List.length col)).
Proof.
  split.
  - intros H. unfold getStats, floats_of, getitem. now rewrite H.
  - intros col Hcol. rewrite (getStats_peakInfo round df columnName col Hcol).
    assert (Hnone : (forall v, In v col -> is_nan v = true) ->
                    peakInfo round col = Raise IndexError).
    { intros Hall. unfold peakInfo.
      assert (Hmin : series_min col = nan).
      { unfold series_min. rewrite filter_all_false; [reflexivity |].
        intros x Hx. now rewrite (Hall x Hx). }
      rewrite Hmin, first_index_none; [reflexivity |].
      intros x _. apply float_eqb_nan. }
    assert (Hsome : (exists v, In v col /\ is_nan v = false) ->
                    exists p, peakInfo round col = Ok p /\ index p < List.length col).
    { intros H. destruct (peakInfo_returns round col H) as [imin [imax [Hi [Ha Hp]]]].
      rewrite Hp. apply first_index_bound in Hi, Ha.
      destruct (abs (series_max col) <? abs (series_min col))%float;
        eexists; (split; [reflexivity | cbn [index]; assumption]). }
    split; split.
    + exact Hnone.
    + intros Hraise. destruct (all_nan_or_number col) as [H | H]; [exact H |].
      destruct (Hsome H) as [p [Hp _]]. congruence.
    + exact Hsome.
    + intros [p [Hp _]]. destruct (all_nan_or_number col) as [H | H]; [| exact H].
      rewrite (Hnone H) in Hp. discriminate.
Qed.

Lemma setSensitivity_unknown (code : string) :
  ~ In code SENSOR_CODES_WITH_CHANNELS ->
  setSensitivity code = Raise (ValueError "Sensitivity must contain non-null value.").
Proof.
  intros Hnot. unfold setSensitivity.
  assert (H1 : Py.list_in code
                 (filter (fun c => Py.str_in "F" c) SENSOR_CODES_WITH_CHANNELS) = false)
    by (apply list_in_filter_false; intros [H _]; contradiction).
  assert (H2 : Py.list_in code
                 (filter (fun c => negb (Py.str_in "F" c)) SENSOR_CODES_WITH_CHANNELS)
               = false)
    by (apply list_in_filter_false; intros [H _]; contradiction).
  now rewrite H1, H2.
Qed.

Lemma setSensitivity_known (code : string) :
  In code SENSOR_CODES_WITH_CHANNELS -> exists s, setSensitivity code = Ok s.
Proof.
  intros Hin. unfold setSensitivity.
  destruct (Py.str_in "F" code) eqn:HF.
  - assert (E : Py.list_in code
                  (filter (fun c => Py.str_in "F" c) SENSOR_CODES_WITH_CHANNELS) = true)
      by (apply list_in_filter; now split).
    rewrite E. eauto.
  - assert (E : Py.list_in code
                  (filter (fun c => negb (Py.str_in "F" c)) SENSOR_CODES_WITH_CHANNELS)
                = true)
      by (apply list_in_filter; split; [exact Hin | now rewrite HF]).
    rewrite E.
    destruct (Py.list_in code
                (filter (fun c => Py.str_in "F" c) SENSOR_CODES_WITH_CHANNELS)); eauto.
Qed.

(** X14: the constructor checks the sensor code before it touches the data.
    For a code outside the sensor table it raises the [ValueError] of
    [setSensitivity] whatever the frame is; for a code of the table and a
    frame without a [count] column it raises [KeyError] for ['count']. *)
Theorem Conversion_init_errors
    (detrend : list float -> list float)
    (butter : Z -> list float -> string -> list float * list float)
    (lfilter : list float -> list float -> list float -> list float)
    (round : float -> Z -> float)
    (df : DataFrame) (sensorCodeWithChannel : string) :
  (~ In sensorCodeWithChannel SENSOR_CODES_WITH_CHANNELS ->
   Conversion_init detrend butter lfilter round df sensorCodeWithChannel
   = Raise (ValueError "Sensitivity must contain non-null value.")) /\
  (In sensorCodeWithChannel SENSOR_CODES_WITH_CHANNELS ->
   lookup df "count" = None ->
   Conversion_init detrend butter lfilter round df sensorCodeWithChannel
   = Raise (KeyError "count")).
Proof.
  unfold Conversion_init. split.
  - intros H. now rewrite (setSensitivity_unknown _ H).
  - intros Hin Hcount. destruct (setSensitivity_known _ Hin) as [s Hs].
    rewrite Hs. cbn [bind].
    unfold Conversion_frame, stages_before_truncation, ints_of, getitem.
    now rewrite Hcount.
Qed.

(* ===================================================================== *)
(** * Which samples the constructor keeps *)
(* ===================================================================== *)


Section KeptSamples.

Variable detrend : list float -> list float.
Variable butter : Z -> list float -> string -> list float * list float.
Variable lfilter : list float -> list float -> list float -> list float.







End KeptSamples.




(* ===================================================================== *)
(** * Pairing the files of a two-hour event *)
(* ===================================================================== *)

Lemma fold_left_append_each {A B : Type} (g : A -> B) (l : list A) (acc : list B) :
  fold_left (fun paired c => paired ++ [g c]) l acc = acc ++ map g l.
Proof.
  revert acc. induction l as [| a l IH]; intros acc; cbn [fold_left map].
  - now rewrite app_nil_r.
  - rewrite IH, <- app_assoc. reflexivity.
Qed.

Lemma mapM_channels (l : list string) :
  (forall f, In f l -> exists info, getSensorCodeInfo f = Ok info) ->
  mapM (fun file => info <- getSensorCodeInfo file ;; Ok (file, snd info)) l
  = Ok (map (fun f => (f, channel_of f)) l).
Proof.
  induction l as [| a l IH]; intros Hall; [reflexivity |].
  cbn [mapM map]. destruct (Hall a (or_introl eq_refl)) as [info Hinfo].
  unfold channel_of at 1. rewrite Hinfo. cbn [bind].
  rewrite IH by (intros f Hf; apply Hall; now right). reflexivity.
Qed.

Lemma mapM_channels_raise (before after : list string) (f : string) (e : exn) :
  (forall x, In x before -> exists info, getSensorCodeInfo x = Ok info) ->
  getSensorCodeInfo f = Raise e ->
  mapM (fun file => info <- getSensorCodeInfo file ;; Ok (file, snd info))
       (before ++ f :: after)
  = Raise e.
Proof.
  induction before as [| a l IH]; intros Hall Hf; cbn [app mapM].
  - now rewrite Hf.
  - destruct (Hall a (or_introl eq_refl)) as [info Hinfo]. rewrite Hinfo. cbn [bind].
    rewrite IH; [reflexivity | intros x Hx; apply Hall; now right | exact Hf].
Qed.

(** A file that is named like a channel has that channel. *)
Lemma channel_of_code (c : string) :
  In c SENSOR_CODES_WITH_CHANNELS -> channel_of c = c.
Proof.
  unfold SENSOR_CODES_WITH_CHANNELS. cbn [In]. intros H.
  repeat (destruct H as [<- | H]; [vm_compute; reflexivity |]). destruct H.
Qed.

Lemma tuple_in_channel (c f : string) :
  In c SENSOR_CODES_WITH_CHANNELS ->
  tuple_in c (f, channel_of f) = String.eqb (channel_of f) c.
Proof.
  intros Hc. unfold tuple_in. cbn [fst snd].
  rewrite (String.eqb_sym c (channel_of f)).
  destruct (String.eqb c f) eqn:E; [| reflexivity].
  apply String.eqb_eq in E. subst f. rewrite (channel_of_code c Hc).
  now rewrite String.eqb_refl.
Qed.

Lemma filter_tuple_in (c : string) (l : list string) :
  In c SENSOR_CODES_WITH_CHANNELS ->
  filter (tuple_in c) (map (fun f => (f, channel_of f)) l)
  = map (fun f => (f, c)) (filter (fun f => String.eqb (channel_of f) c) l).
Proof.
  intros Hc. induction l as [| a l IH]; [reflexivity |].
  cbn [map filter]. rewrite (tuple_in_channel c a Hc).
  destruct (String.eqb (channel_of a) c) eqn:E; [| exact IH].
  cbn [map]. rewrite IH. apply String.eqb_eq in E. now rewrite E.
Qed.

(** X16: pairing. With a count other than 48 [pairDeviceTxtFiles] appends
    nothing. With 48 it appends 24 lists, one for each entry of
    [SENSOR_CODES_WITH_CHANNELS] and in that order: the list of a channel
    holds the files whose name gives that channel, in the order of
    [txtFileList], each with the channel; a file whose channel is not
    among the 24 is in no list, and a list can have any length, 0
    included. When [getSensorCodeInfo] raises for a file, the call raises
    [IndexError] and appends nothing. *)
Theorem pairDeviceTxtFiles_groups (txtFileList : list string) (txtFileCount : Z)
    (pairedTxtFileList : list (list (string * string))) :
  (txtFileCount <> 48%Z ->
   pairDeviceTxtFiles txtFileList txtFileCount pairedTxtFileList
   = Ok pairedTxtFileList) /\
  ((forall f, In f txtFileList -> exists info, getSensorCodeInfo f = Ok info) ->
   pairDeviceTxtFiles txtFileList 48 pairedTxtFileList
   = Ok (pairedTxtFileList
         ++ map (fun c =>
                   map (fun f => (f, c))
                       (filter (fun f => String.eqb (channel_of f) c) txtFileList))
                SENSOR_CODES_WITH_CHANNELS)) /\
  (forall before f after,
     txtFileList = before ++ f :: after ->
     (forall x, In x before -> exists info, getSensorCodeInfo x = Ok info) ->
     getSensorCodeInfo f = Raise IndexError ->
     pairDeviceTxtFiles txtFileList 48 pairedTxtFileList = Raise IndexError).
Proof.
  split; [| split].
  - intros Hne. unfold pairDeviceTxtFiles.
    destruct (txtFileCount =? 48)%Z eqn:E; [| reflexivity].
    apply Z.eqb_eq in E. contradiction.
  - intros Hall. unfold pairDeviceTxtFiles. cbn [Z.eqb Pos.eqb].
    rewrite (mapM_channels txtFileList Hall). cbn [bind].
    rewrite (fold_left_append_each
               (fun c => filter (tuple_in c)
                           (map (fun f => (f, channel_of f)) txtFileList))).
    do 2 f_equal. apply map_ext_in. intros c Hc. now apply filter_tuple_in.
  - intros before f after -> Hall Hf. unfold pairDeviceTxtFiles. cbn [Z.eqb Pos.eqb].
    now rewrite (mapM_channels_raise before after f IndexError Hall Hf).
Qed.

Example pairDeviceTxtFiles_two_files :
  pairDeviceTxtFiles
    ["/w/20190926110000.ALZ.001.N39y.txt"; "/w/20190926100000.ALZ.001.N39y.txt";
     "/w/20190926100000.ALZ.001.T01x.txt"] 48 []
  = Ok ([[]; [("/w/20190926110000.ALZ.001.N39y.txt", "N39y");
              ("/w/20190926100000.ALZ.001.N39y.txt", "N39y")]]
        ++ repeat [] 22).
Proof. vm_compute. reflexivity. Qed.

(* ===================================================================== *)
(** * The statistics table *)
(* ===================================================================== *)

Example StatsTable_init_columns :
  exists t,
    StatsTable_init = Ok t /\
    column_names t = columnHeaders /\
    lookup t "Floor"
    = Some (map PyStr ["L40"; "L40"; "L40"; "L40"; "L40"; "L40";
                       "L25"; "L25"; "L25"; "L25"; "L25"; "L25";
                       "L13"; "L13"; "L13"; "L13"; "L13"; "L13";
                       "B4"; "B4"; "B4"; "GF"; "GF"; "GF"]) /\
    lookup t "Axis"
    = Some (map PyStr ["X"; "Y"; "Z"; "X"; "Y"; "Z"; "X"; "Y"; "Z"; "X"; "Y"; "Z";
                       "X"; "Y"; "Z"; "X"; "Y"; "Z"; "X"; "Y"; "Z"; "X"; "Y"; "Z"]) /\
    lookup t "Disp (cm)" = Some (repeat (PyFloat nan) 24).
Proof. eexists. repeat split; vm_compute; reflexivity. Qed.

Lemma stats_table_shape (t : DataFrame) :
  stats_table t ->
  exists ch fl ax c0 c1 c2 c3,
    t = table_of ch fl ax c0 c1 c2 c3 /\
    List.length c0 = 24 /\ List.length c1 = 24 /\
    List.length c2 = 24 /\ List.length c3 = 24.
Proof.
  intros [Hn [Hid Hst]]. unfold column_names, columnHeaders in Hn.
  destruct t as [| [k0 ch] t]; [discriminate Hn |].
  destruct t as [| [k1 ids] t]; [discriminate Hn |].
  destruct t as [| [k2 fl] t]; [discriminate Hn |].
  destruct t as [| [k3 ax] t]; [discriminate Hn |].
  destruct t as [| [k4 x0] t]; [discriminate Hn |].
  destruct t as [| [k5 x1] t]; [discriminate Hn |].
  destruct t as [| [k6 x2] t]; [discriminate Hn |].
  destruct t as [| [k7 x3] t]; [discriminate Hn |].
  destruct t; [| discriminate Hn].
  cbn [map fst] in Hn. injection Hn as -> -> -> -> -> -> -> ->.
  assert (E : forall a b : Series, Some a = Some b -> a = b) by (intros; congruence).
  apply E in Hid. subst.
  destruct (Hst "Offset Acc (g)") as [c0 [H0 L0]]; [vm_compute; tauto |].
  destruct (Hst "Acc (g)") as [c1 [H1 L1]]; [vm_compute; tauto |].
  destruct (Hst "Vel (cm/s)") as [c2 [H2 L2]]; [vm_compute; tauto |].
  destruct (Hst "Disp (cm)") as [c3 [H3 L3]]; [vm_compute; tauto |].
  apply E in H0, H1, H2, H3. subst.
  exists ch, fl, ax, c0, c1, c2, c3. repeat split; assumption.
Qed.

Lemma table_of_stats_table (ch fl ax : Series) (c0 c1 c2 c3 : list float) :
  List.length c0 = 24 -> List.length c1 = 24 ->
  List.length c2 = 24 -> List.length c3 = 24 ->
  stats_table (table_of ch fl ax c0 c1 c2 c3).
Proof.
  intros L0 L1 L2 L3. split; [reflexivity | split; [reflexivity |]].
  intros k Hk.
  assert (Hk' : k = "Offset Acc (g)" \/ k = "Acc (g)" \/ k = "Vel (cm/s)"
                \/ k = "Disp (cm)")
    by (vm_compute in Hk; intuition congruence).
  destruct Hk' as [-> | [-> | [-> | ->]]];
    [exists c0 | exists c1 | exists c2 | exists c3]; split; (reflexivity || assumption).
Qed.

Lemma updateStatsDf_column (df : DataFrame) (code name : string) (v : float)
    (ids col : Series) :
  lookup df "ID" = Some ids -> lookup df name = Some col ->
  updateStatsDf df code name v
  = Ok (set_column df name (set_where (map (cell_is code) ids) (PyFloat v) col)).
Proof.
  intros Hid Hcol. unfold updateStatsDf, getitem. rewrite Hid. cbn [bind].
  now rewrite Hcol.
Qed.

Lemma set_where_floats (ids : list string) (code : string) (v : float)
    (col : list float) :
  set_where (map (cell_is code) (map PyStr ids)) (PyFloat v) (map PyFloat col)
  = map PyFloat (map (put_peak code v) (combine ids col)).
Proof.
  unfold set_where. revert col.
  induction ids as [| a ids IH]; intros col; [reflexivity |].
  destruct col as [| x col]; [reflexivity |].
  cbn [map combine fst snd cell_is]. rewrite IH.
  unfold put_peak at 2. cbn [fst snd].
  now destruct (String.eqb a code).
Qed.

Lemma record_peak_length (code : string) (v : float) (col : list float) :
  List.length col = 24 -> List.length (record_peak code v col) = 24.
Proof.
  intros H. unfold record_peak. rewrite length_map, length_combine, H. reflexivity.
Qed.

(** What the four updates of [updateStatsTable] do to a table. *)
Lemma updateStatsTable_table_of (ch fl ax : Series) (c0 c1 c2 c3 : list float)
    (code : string) (c : Conversion) :
  updateStatsTable (table_of ch fl ax c0 c1 c2 c3) code c
  = Ok (table_of ch fl ax
          (record_peak code (roundedValue (accOffsetStats c)) c0)
          (record_peak code (roundedValue (accBandpassedStats c)) c1)
          (record_peak code (roundedValue (velStats c)) c2)
          (record_peak code (roundedValue (dispStats c)) c3)).
Proof.
  unfold updateStatsTable.
  change (nth 0 statsColumnNames EmptyString) with "Offset Acc (g)".
  change (nth 1 statsColumnNames EmptyString) with "Acc (g)".
  change (nth 2 statsColumnNames EmptyString) with "Vel (cm/s)".
  change (nth 3 statsColumnNames EmptyString) with "Disp (cm)".
  set (a := roundedValue (accOffsetStats c)).
  set (b := roundedValue (accBandpassedStats c)).
  set (v := roundedValue (velStats c)).
  set (d := roundedValue (dispStats c)).
  rewrite (updateStatsDf_column (table_of ch fl ax c0 c1 c2 c3) code
             "Offset Acc (g)" a
             (map PyStr SENSOR_CODES_WITH_CHANNELS) (map PyFloat c0) eq_refl eq_refl).
  rewrite set_where_floats. fold (record_peak code a c0).
  change (set_column (table_of ch fl ax c0 c1 c2 c3) "Offset Acc (g)"
            (map PyFloat (record_peak code a c0)))
    with (table_of ch fl ax (record_peak code a c0) c1 c2 c3).
  cbn [bind].
  rewrite (updateStatsDf_column (table_of ch fl ax (record_peak code a c0) c1 c2 c3)
             code "Acc (g)" b
             (map PyStr SENSOR_CODES_WITH_CHANNELS) (map PyFloat c1) eq_refl eq_refl).
  rewrite set_where_floats. fold (record_peak code b c1).
  change (set_column (table_of ch fl ax (record_peak code a c0) c1 c2 c3) "Acc (g)"
            (map PyFloat (record_peak code b c1)))
    with (table_of ch fl ax (record_peak code a c0) (record_peak code b c1) c2 c3).
  cbn [bind].
  rewrite (updateStatsDf_column
             (table_of ch fl ax (record_peak code a c0) (record_peak code b c1) c2 c3)
             code "Vel (cm/s)" v
             (map PyStr SENSOR_CODES_WITH_CHANNELS) (map PyFloat c2) eq_refl eq_refl).
  rewrite set_where_floats. fold (record_peak code v c2).
  change (set_column
            (table_of ch fl ax (record_peak code a c0) (record_peak code b c1) c2 c3)
            "Vel (cm/s)" (map PyFloat (record_peak code v c2)))
    with (table_of ch fl ax (record_peak code a c0) (record_peak code b c1)
            (record_peak code v c2) c3).
  cbn [bind].
  rewrite (updateStatsDf_column
             (table_of ch fl ax (record_peak code a c0) (record_peak code b c1)
                (record_peak code v c2) c3)
             code "Disp (cm)" d
             (map PyStr SENSOR_CODES_WITH_CHANNELS) (map PyFloat c3) eq_refl eq_refl).
  rewrite set_where_floats. reflexivity.
Qed.

Lemma nth_error_put_peak (code : string) (v : float) (ids : list string)
    (col : list float) (i : nat) :
  List.length col = List.length ids -> i < List.length ids ->
  nth_error (map (put_peak code v) (combine ids col)) i
  = if String.eqb (nth i ids EmptyString) code then Some v else nth_error col i.
Proof.
  revert col i. induction ids as [| a ids IH]; intros col i Hlen Hi;
    [cbn [List.length] in Hi; lia |].
  destruct col as [| x col]; [discriminate Hlen |].
  cbn [List.length] in Hlen, Hi. cbn [combine map].
  destruct i as [| i]; cbn [nth_error nth].
  - unfold put_peak. cbn [fst snd]. now destruct (String.eqb a code).
  - apply IH; lia.
Qed.

Lemma put_peak_absent (code : string) (v : float) (ids : list string)
    (col : list float) :
  ~ In code ids -> List.length col = List.length ids ->
  map (put_peak code v) (combine ids col) = col.
Proof.
  revert col. induction ids as [| a ids IH]; intros col Hn Hlen;
    destruct col as [| x col]; try discriminate Hlen; [reflexivity |].
  cbn [combine map]. unfold put_peak at 1. cbn [fst snd].
  destruct (String.eqb a code) eqn:E.
  - apply String.eqb_eq in E. elim Hn. now left.
  - f_equal. apply IH; [intros H; apply Hn; now right | now injection Hlen].
Qed.

Lemma put_peak_present (code : string) (v : float) (ids : list string)
    (col : list float) :
  In code ids -> List.length col = List.length ids ->
  In v (map (put_peak code v) (combine ids col)).
Proof.
  revert col. induction ids as [| a ids IH]; intros col Hin Hlen; [destruct Hin |].
  destruct col as [| x col]; [discriminate Hlen |].
  cbn [combine map]. destruct Hin as [-> | Hin].
  - left. unfold put_peak. cbn [fst]. now rewrite String.eqb_refl.
  - right. apply IH; [exact Hin | now injection Hlen].
Qed.

Lemma put_peak_commute (code1 code2 : string) (v1 v2 : float) (ids : list string)
    (col : list float) :
  code1 <> code2 ->
  map (put_peak code2 v2) (combine ids (map (put_peak code1 v1) (combine ids col)))
  = map (put_peak code1 v1) (combine ids (map (put_peak code2 v2) (combine ids col))).
Proof.
  intros Hne. revert col. induction ids as [| a ids IH]; intros col; [reflexivity |].
  destruct col as [| x col]; [reflexivity |].
  cbn [combine map]. rewrite IH. f_equal.
  unfold put_peak. cbn [fst snd].
  destruct (String.eqb a code1) eqn:E1, (String.eqb a code2) eqn:E2; try reflexivity.
  apply String.eqb_eq in E1, E2. congruence.
Qed.

Lemma put_peak_overwrite (code : string) (v1 v2 : float) (ids : list string)
    (col : list float) :
  map (put_peak code v2) (combine ids (map (put_peak code v1) (combine ids col)))
  = map (put_peak code v2) (combine ids col).
Proof.
  revert col. induction ids as [| a ids IH]; intros col; [reflexivity |].
  destruct col as [| x col]; [reflexivity |].
  cbn [combine map]. rewrite IH. f_equal.
  unfold put_peak. cbn [fst snd]. now destruct (String.eqb a code).
Qed.

Lemma nth_error_record_peak (code : string) (v : float) (col : list float) (i : nat) :
  List.length col = 24 -> i < 24 ->
  nth_error (map PyFloat (record_peak code v col)) i
  = if String.eqb (nth i SENSOR_CODES_WITH_CHANNELS EmptyString) code
    then Some (PyFloat v) else nth_error (map PyFloat col) i.
Proof.
  intros Hlen Hi. rewrite !nth_error_map. unfold record_peak.
  rewrite (nth_error_put_peak code v SENSOR_CODES_WITH_CHANNELS col i Hlen Hi).
  now destruct (String.eqb (nth i SENSOR_CODES_WITH_CHANNELS EmptyString) code).
Qed.

Lemma lookup_table_of_static (ch fl ax : Series) (c0 c1 c2 c3 d0 d1 d2 d3 : list float)
    (name : string) :
  ~ In name statsColumnNames ->
  lookup (table_of ch fl ax d0 d1 d2 d3) name
  = lookup (table_of ch fl ax c0 c1 c2 c3) name.
Proof.
  intros Hn. unfold table_of. cbn [lookup].
  repeat match goal with
  | |- (if String.eqb ?k name then _ else _) = (if String.eqb ?k name then _ else _) =>
      let E := fresh "E" in
      destruct (String.eqb k name) eqn:E;
        [apply String.eqb_eq in E; subst name;
         first [reflexivity | exfalso; apply Hn; vm_compute; tauto] |]
  end.
  reflexivity.
Qed.

(** X17: recording the peaks of one sensor. On a statistics table,
    [updateStatsTable] never raises and leaves a statistics table. The
    columns [Ch], [ID], [Floor] and [Axis] are unchanged. In each of the
    four statistics columns, the row of the sensor (the row whose [ID] is
    the code of the conversion object) now holds the rounded peak value of
    that column, and every other row holds what it held before. For a code
    that is not among [SENSOR_CODES_WITH_CHANNELS] the table is unchanged:
    the peaks of such an object are dropped without an error. *)
Theorem updateStatsTable_row (t : DataFrame) (code : string) (c : Conversion) :
  stats_table t ->
  exists t',
    updateStatsTable t code c = Ok t' /\ stats_table t' /\
    (forall name, ~ In name statsColumnNames -> lookup t' name = lookup t name) /\
    (forall k name v i,
       nth_error statsColumnNames k = Some name ->
       nth_error (peakVals c) k = Some v ->
       i < 24 ->
       cell_at t' name i
       = if String.eqb (nth i SENSOR_CODES_WITH_CHANNELS EmptyString) code
         then Some (PyFloat v) else cell_at t name i) /\
    (~ In code SENSOR_CODES_WITH_CHANNELS -> t' = t).
Proof.
  intros Ht. apply stats_table_shape in Ht.
  destruct Ht as [ch [fl [ax [c0 [c1 [c2 [c3 [-> [L0 [L1 [L2 L3]]]]]]]]]]].
  eexists. split; [apply updateStatsTable_table_of |].
  split; [apply table_of_stats_table; now apply record_peak_length |].
  split; [intros name Hn; now apply lookup_table_of_static |].
  split.
  - intros k name v i Hname Hv Hi.
    destruct k as [| [| [| [| k]]]];
      [| | | | destruct k; discriminate Hname];
      vm_compute in Hname; cbn [peakVals nth_error] in Hv;
      injection Hname as <-; injection Hv as <-.
    + exact (nth_error_record_peak code _ c0 i L0 Hi).
    + exact (nth_error_record_peak code _ c1 i L1 Hi).
    + exact (nth_error_record_peak code _ c2 i L2 Hi).
    + exact (nth_error_record_peak code _ c3 i L3 Hi).
  - intros Hn. unfold record_peak.
    now rewrite !(put_peak_absent code _ SENSOR_CODES_WITH_CHANNELS) by assumption.
Qed.

Lemma fresh_table_stats : stats_table fresh_table.
Proof.
  split; [reflexivity | split; [reflexivity |]].
  intros k Hk.
  assert (Hk' : k = "Offset Acc (g)" \/ k = "Acc (g)" \/ k = "Vel (cm/s)"
                \/ k = "Disp (cm)")
    by (vm_compute in Hk; intuition congruence).
  exists (repeat nan 24).
  destruct Hk' as [-> | [-> | [-> | ->]]]; split; reflexivity.
Defined.

Lemma updateStatsTable_row_witness :
  exists t',
    updateStatsTable fresh_table "B4Fx"
      (conversion_with 0.0213 (-0.0094) 0.1535 (-0.1688)) = Ok t' /\
    stats_table t' /\
    (forall name, ~ In name statsColumnNames ->
                  lookup t' name = lookup fresh_table name) /\
    (forall k name v i,
       nth_error statsColumnNames k = Some name ->
       nth_error (peakVals (conversion_with 0.0213 (-0.0094) 0.1535 (-0.1688))) k
       = Some v ->
       i < 24 ->
       cell_at t' name i
       = if String.eqb (nth i SENSOR_CODES_WITH_CHANNELS EmptyString) "B4Fx"
         then Some (PyFloat v) else cell_at fresh_table name i) /\
    (~ In "B4Fx" SENSOR_CODES_WITH_CHANNELS -> t' = fresh_table).
Proof.
  exact (updateStatsTable_row fresh_table "B4Fx"
           (conversion_with 0.0213 (-0.0094) 0.1535 (-0.1688)) fresh_table_stats).
Defined.

(** X18: the order of the recordings. On a statistics table, the recordings
    of two objects with different sensor codes commute: the table after
    both does not depend on which came first. Two recordings with the same
    code leave what the second alone leaves: the later one wins. *)
Theorem updateStatsTable_order (t : DataFrame) (code1 code2 : string)
    (c1 c2 : Conversion) :
  stats_table t ->
  (code1 <> code2 ->
   (t1 <- updateStatsTable t code1 c1 ;; updateStatsTable t1 code2 c2)
   = (t2 <- updateStatsTable t code2 c2 ;; updateStatsTable t2 code1 c1)) /\
  (t1 <- updateStatsTable t code1 c1 ;; updateStatsTable t1 code1 c2)
  = updateStatsTable t code1 c2.
Proof.
  intros Ht. apply stats_table_shape in Ht.
  destruct Ht as [ch [fl [ax [c0 [c1' [c2' [c3 [-> _]]]]]]]].
  split; [intros Hne |];
    rewrite !updateStatsTable_table_of; cbn [bind];
    rewrite !updateStatsTable_table_of; unfold record_peak.
  - now rewrite !(put_peak_commute code1 code2) by exact Hne.
  - now rewrite !put_peak_overwrite.
Qed.

Lemma updateStatsTable_order_witness :
  ("N39x" <> "S39x" ->
   (t1 <- updateStatsTable fresh_table "N39x" (conversion_with 1 2 3 4) ;;
    updateStatsTable t1 "S39x" (conversion_with 5 6 7 8))
   = (t2 <- updateStatsTable fresh_table "S39x" (conversion_with 5 6 7 8) ;;
      updateStatsTable t2 "N39x" (conversion_with 1 2 3 4))) /\
  (t1 <- updateStatsTable fresh_table "N39x" (conversion_with 1 2 3 4) ;;
   updateStatsTable t1 "N39x" (conversion_with 5 6 7 8))
  = updateStatsTable fresh_table "N39x" (conversion_with 5 6 7 8).
Proof.
  exact (updateStatsTable_order fresh_table "N39x" "S39x"
           (conversion_with 1 2 3 4) (conversion_with 5 6 7 8) fresh_table_stats).
Defined.


Lemma getStatsMaxValues_table_of (ch fl ax : Series) (c0 c1 c2 c3 : list float) :
  getStatsMaxValues (table_of ch fl ax c0 c1 c2 c3)
  = Ok [series_max c0; series_max c1; series_max c2; series_max c3].
Proof.
  unfold getStatsMaxValues.
  change statsColumnNames
    with ["Offset Acc (g)"; "Acc (g)"; "Vel (cm/s)"; "Disp (cm)"].
  cbn [mapM]. unfold getColumnMax, floats_of, getitem.
  change (lookup (table_of ch fl ax c0 c1 c2 c3) "Offset Acc (g)")
    with (Some (map PyFloat c0)).
  change (lookup (table_of ch fl ax c0 c1 c2 c3) "Acc (g)")
    with (Some (map PyFloat c1)).
  change (lookup (table_of ch fl ax c0 c1 c2 c3) "Vel (cm/s)")
    with (Some (map PyFloat c2)).
  change (lookup (table_of ch fl ax c0 c1 c2 c3) "Disp (cm)")
    with (Some (map PyFloat c3)).
  cbn [bind]. rewrite !mapM_to_float_PyFloat. reflexivity.
Qed.




(** X20: a recorded peak and the maxima. After the peaks of an object with
    a known sensor code were recorded on a statistics table, each of the
    four maxima that [getStatsMaxValues] returns is at least the peak
    value recorded in its column, when that value is a number. *)
Theorem getStatsMaxValues_covers_peak (t : DataFrame) (code : string)
    (c : Conversion) :
  stats_table t -> In code SENSOR_CODES_WITH_CHANNELS ->
  exists t' ms,
    updateStatsTable t code c = Ok t' /\ getStatsMaxValues t' = Ok ms /\
    forall k v m,
      nth_error (peakVals c) k = Some v -> nth_error ms k = Some m ->
      is_nan v = false -> (v <=? m)%float = true.
Proof.
  intros Ht Hcode. apply stats_table_shape in Ht.
  destruct Ht as [ch [fl [ax [c0 [c1 [c2 [c3 [-> [L0 [L1 [L2 L3]]]]]]]]]]].
  eexists. eexists.
  split; [apply updateStatsTable_table_of |].
  split; [apply getStatsMaxValues_table_of |].
  assert (Hle : forall v col, List.length col = 24 -> is_nan v = false ->
                  (v <=? series_max (record_peak code v col))%float = true).
  { intros v col Hlen Hv.
    assert (Hin : In v (record_peak code v col))
      by (apply put_peak_present; assumption).
    apply series_max_spec; [now exists v | exact Hin | exact Hv]. }
  intros k v m Hv Hm Hnan.
  destruct k as [| [| [| [| k]]]];
    [| | | | destruct k; discriminate Hv];
    cbn [peakVals nth_error] in Hv, Hm;
    injection Hv as <-; injection Hm as <-; now apply Hle.
Qed.

Lemma getStatsMaxValues_covers_peak_witness :
  exists t' ms,
    updateStatsTable fresh_table "B4Fx"
      (conversion_with 0.0213 (-0.0094) 0.1535 (-0.1688)) = Ok t' /\
    getStatsMaxValues t' = Ok ms /\
    forall k v m,
      nth_error (peakVals (conversion_with 0.0213 (-0.0094) 0.1535 (-0.1688))) k
      = Some v ->
      nth_error ms k = Some m ->
      is_nan v = false -> (v <=? m)%float = true.
Proof.
  apply (getStatsMaxValues_covers_peak fresh_table "B4Fx"
           (conversion_with 0.0213 (-0.0094) 0.1535 (-0.1688)) fresh_table_stats).
  vm_compute. tauto.
Defined.

(** The maximum is the greatest signed value: a table whose only
    displacement peak is negative has a negative maximum. *)
Example getStatsMaxValues_negative_peak :
  (t <- updateStatsTable fresh_table "B4Fx"
          (conversion_with 0.0213 (-0.0094) 0.1535 (-0.1688)) ;;
   getStatsMaxValues t)
  = Ok [0.0213; -0.0094; 0.1535; -0.1688]%float.
Proof. vm_compute. reflexivity. Qed.

(* ===================================================================== *)
(** * The canvases of the comparison plots *)
(* ===================================================================== *)

Lemma all_in_two (a b code : string) :
  all_in [a; b] code = Py.str_in a code && Py.str_in b code.
Proof. unfold all_in. cbn [forallb]. now rewrite andb_true_r. Qed.

(** X21: which comparison canvases a channel is drawn on.
    [drawComparisonPlot] draws on at most two canvases, all with the same
    y limit, 1.15 times the maximum of the displacement column as
    [m + m * 0.15]. A canvas is only drawn on when the code contains the
    axis letter of the canvas and either its corner letter or ['B'], so a
    code without ['x'] and ['y'] is drawn nowhere. For the 24 codes of
    [SENSOR_CODES_WITH_CHANNELS]: a channel is drawn on a canvas exactly
    when it is not a far-field channel, its axis (as [getAxis] gives it)
    is the axis of the canvas, and its code starts with the corner letter
    of the canvas or with ['B']; the vertical channels and the far-field
    channels are drawn on no canvas, the basement channels on both
    canvases of their axis. *)
Theorem drawComparisonPlot_canvases (displacementMaxVal : float) (code : string) :
  List.length (drawComparisonPlot displacementMaxVal code) <= 2 /\
  (forall cv yLimit,
     In (cv, yLimit) (drawComparisonPlot displacementMaxVal code) ->
     yLimit = (displacementMaxVal + displacementMaxVal * 0.15)%float /\
     Py.str_in (canvas_axis cv) code = true /\
     (Py.str_in (canvas_corner cv) code = true \/ Py.str_in "B" code = true)) /\
  (In code SENSOR_CODES_WITH_CHANNELS ->
   forall cv,
     In cv (map fst (drawComparisonPlot displacementMaxVal code)) <->
     prefix "FF" code = false /\
     getAxis code = Ok (canvas_axis_name cv) /\
     (prefix (canvas_corner cv) code = true \/ prefix "B" code = true)).
Proof.
  split; [| split].
  - unfold drawComparisonPlot.
    repeat match goal with
    | |- context [if ?b then _ else _] => destruct b
    end; cbn [List.length]; lia.
  - intros cv yLimit. unfold drawComparisonPlot. rewrite !all_in_two.
    destruct (Py.str_in "N" code) eqn:EN, (Py.str_in "S" code) eqn:ES,
             (Py.str_in "B" code) eqn:EB, (Py.str_in "x" code) eqn:Ex,
             (Py.str_in "y" code) eqn:Ey;
      cbn [andb In]; intros H;
      repeat (destruct H as [H | H]; [injection H as <- <- |]);
      try destruct H;
      cbn [canvas_axis canvas_corner];
      repeat split; try assumption; try (now left); try (now right).
  - unfold SENSOR_CODES_WITH_CHANNELS. cbn [In]. intros H cv.
    repeat (destruct H as [<- | H];
            [destruct cv; vm_compute; intuition congruence |]).
    destruct H.
Qed.

Example drawComparisonPlot_examples :
  map fst (drawComparisonPlot 1 "N39x") = [NXcomparisonCanvas] /\
  map fst (drawComparisonPlot 1 "S12y") = [SYcomparisonCanvas] /\
  map fst (drawComparisonPlot 1 "B4Fx") = [SXcomparisonCanvas; NXcomparisonCanvas] /\
  map fst (drawComparisonPlot 1 "N24z") = [] /\
  map fst (drawComparisonPlot 1 "FFN") = [].
Proof. repeat split. Qed.
